(** * train_autoencoder.py: the training binary of the YouTube-8M label
      autoencoder, embedded in Rocq.

    The Python functions of [train_autoencoder.py] are translated one by
    one.  Exceptions are values of [exn]; a function that can raise returns
    an [outcome]; a function that logs, touches the training directory or
    drives the session is a computation of the monad [M] over a [world].
    TensorFlow graph entities are symbolic ([tensor]): building the graph
    is building terms, nothing is evaluated numerically. *)

From stdpp Require Import base strings gmap list pretty.
From Stdlib Require Import ZArith QArith.

Set Warnings "-register-all".
Local Open Scope string_scope.
Local Open Scope list_scope.
Local Open Scope Z_scope.

(** ** Python values and exceptions *)

(** The exceptions the file raises or lets through. *)
Inductive exn : Type :=
| AttributeError (attribute : string) (* module.attribute, not defined there *)
| IOError (msg : string)
| ValueError (msg : string)
| StandardError (fmt arg : string)    (* raised with two arguments, never formatted *)
| StopIteration                       (* next() on an exhausted generator *)
| IndexError                          (* lst[0] on an empty list *)
| KeyError (key : string)             (* d[key] on a missing key *)
| TypeError (msg : string)
| OutOfRangeError                     (* tf.errors.OutOfRangeError *)
| OpError (msg : string).             (* any other error of a session call *)

(** Outcome of a call: a value, an exception, or a call that never
    returns ([server.join()]). *)
Inductive outcome (A : Type) : Type :=
| Ok (a : A)
| Raise (e : exn)
| Blocks.
Arguments Ok {A} a.
Arguments Raise {A} e.
Arguments Blocks {A}.

Definition is_ok {A} (r : outcome A) : bool :=
  match r with Ok _ => true | _ => false end.

(** [sub in s] on Python strings. *)
Fixpoint contains (sub s : string) : bool :=
  String.prefix sub s ||
  match s with
  | EmptyString => false
  | String _ s' => contains sub s'
  end.

(** Truth value of a Python string. *)
Definition str_truthy (s : string) : bool :=
  match s with EmptyString => false | _ => true end.

(** [lst[0]]. *)
Definition first {A} (l : list A) : outcome A :=
  match l with
  | [] => Raise IndexError
  | x :: _ => Ok x
  end.

(** ** Component lookup: validate_class_name and find_class_by_name *)

(** A class, as far as [issubclass] looks at it: its name and the names
    of the classes of its method resolution order, itself included. *)
Record pyclass : Type := { cls_name : string; cls_mro : list string }.

(** What a module binds a name to. *)
Inductive attr : Type :=
| AClass (c : pyclass)
| AOther (truth : bool).   (* any other object, with its truth value *)

(** A module: its attributes by name. *)
Abbreviation pymodule := (gmap string attr).

(** [getattr(module, name, None)]; [None] stands for Python's None. *)
Definition getattr (m : pymodule) (name : string) : option attr := m !! name.

Definition attr_truthy (a : option attr) : bool :=
  match a with
  | None => false
  | Some (AClass _) => true
  | Some (AOther b) => b
  end.

(** [issubclass(candidate, expected_superclass)]: a TypeError when the
    candidate is not a class. *)
Definition issubclass (a : attr) (super : string) : outcome bool :=
  match a with
  | AClass c => Ok (bool_decide (super ∈ cls_mro c))
  | AOther _ => Raise (TypeError "issubclass() arg 1 must be a class")
  end.

Definition doesnt_inherit_msg (category flag_value super : string) : string :=
  category +:+ " '" +:+ flag_value +:+ "' doesn't inherit from " +:+ super +:+ ".".

Definition unable_to_find_msg (category flag_value : string) : string :=
  "Unable to find " +:+ category +:+ " '" +:+ flag_value +:+ "'.".

(** [raise flags.FlagsError(msg)]: the module tensorflow.flags defines no
    FlagsError, so the statement ends in the AttributeError of that lookup,
    before the message is put together. *)
Definition raise_flags_FlagsError {A} (msg : string) : outcome A :=
  Raise (AttributeError "FlagsError").

(** The loop of [validate_class_name] over the candidates. *)
Fixpoint validate_candidates (candidates : list (option attr))
    (flag_value category super : string) : outcome bool :=
  match candidates with
  | [] => raise_flags_FlagsError (unable_to_find_msg category flag_value)
  | candidate :: rest =>
      if negb (attr_truthy candidate) then
        validate_candidates rest flag_value category super
      else
        match candidate with
        | None => validate_candidates rest flag_value category super
        | Some a =>
            match issubclass a super with
            | Ok true => Ok true
            | Ok false =>
                raise_flags_FlagsError
                  (doesnt_inherit_msg category flag_value super)
            | Raise e => Raise e
            | Blocks => Blocks
            end
        end
  end.

Definition validate_class_name (flag_value category : string)
    (modules : list pymodule) (expected_superclass : string) : outcome bool :=
  let candidates := (λ module, getattr module flag_value) <$> modules in
  validate_candidates candidates flag_value category expected_superclass.

(** [next(a for a in modules if a)]. *)
Fixpoint next_truthy (l : list (option attr)) : outcome attr :=
  match l with
  | [] => Raise StopIteration
  | Some a :: rest => if attr_truthy (Some a) then Ok a else next_truthy rest
  | None :: rest => next_truthy rest
  end.

Definition find_class_by_name (name : string) (modules : list pymodule)
    : outcome attr :=
  let modules := (λ module, getattr module name) <$> modules in
  next_truthy modules.

(** ** Tasks and the Trainer constructor *)

(** The task of this process, from TF_CONFIG: a job type and an index
    ([None] for a JSON null). *)
Record TaskSpec : Type := { type : string; index : option Z }.

(** A cluster: job name to addresses. *)
Abbreviation ClusterSpec := (gmap string (list string)).

(** Python 2 comparisons of [task.index] with an integer; None is
    smaller than every integer. *)
Definition index_eq (i : option Z) (n : Z) : bool :=
  match i with Some z => z =? n | None => false end.
Definition index_gt (i : option Z) (n : Z) : bool :=
  match i with Some z => n <? z | None => false end.

Definition index_str (i : option Z) : string :=
  match i with Some z => pretty z | None => "None" end.

Definition task_as_string (task : TaskSpec) : string :=
  "/job:" +:+ type task +:+ "/task:" +:+ index_str (index task).

Record Trainer : Type := {
  self_cluster : option ClusterSpec;
  self_task : TaskSpec;
  self_is_master : bool;
  self_train_dir : string;
  self_config : bool                  (* log_device_placement *)
}.

(** [Trainer.__init__]. *)
Definition Trainer_init (cluster : option ClusterSpec) (task : TaskSpec)
    (train_dir : string) (log_device_placement : bool) : outcome Trainer :=
  let self := {| self_cluster := cluster;
                 self_task := task;
                 self_is_master := String.eqb (type task) "master"
                                   && index_eq (index task) 0;
                 self_train_dir := train_dir;
                 self_config := log_device_placement |} in
  if self_is_master self && index_gt (index (self_task self)) 0 then
    Raise (StandardError "%s: Only one replica of master expected"
                         (task_as_string (self_task self)))
  else Ok self.

(** ** Graph entities

    The graph is built symbolically: a tensor is the term that says how
    it was made.  Python floats of the configuration are rationals. *)

Record variable : Type := { name : string; shape : list Z }.

(** The queue [tf.train.shuffle_batch_join] builds over the readers. *)
Record batch_join : Type := {
  bj_files : list string;
  bj_num_epochs : option Z;
  bj_shuffle : bool;
  bj_components : list (list (list Z));  (* per reader, the shapes it yields *)
  bj_batch_size : Z;
  bj_capacity : Z;
  bj_min_after_dequeue : Z;
  bj_allow_smaller_final_batch : bool;
  bj_enqueue_many : bool
}.

Inductive tensor : Type :=
| TVar (v : variable)
| TOut (name : string) (shape : list Z)          (* an output of the model *)
| TDequeue (q : batch_join) (i : nat)            (* i-th tensor of a batch *)
| TConst (value : Q)
| TGroup (ops : list tensor)                     (* a Python list of ops *)
| TReshape (t : tensor) (shape : list Z)
| TConcat0 (a b : tensor)                        (* tf.concat((a, b), axis=0) *)
| TCalculateLoss (loss_fn : string) (predictions labels : tensor)
| TCalculateLossMix (loss_fn : string)
    (predictions predictions_class labels : tensor)
| TBarrierIdentity (update_ops : list tensor) (t : tensor)
| TAddN (ts : list tensor)
| TAdd (a b : tensor)
| TScale (c : Q) (t : tensor)
| TCast (t : tensor)                             (* tf.cast(t, tf.float32) *)
| TMul (t : tensor) (k : Z)
| TExponentialDecay (learning_rate : Q) (global_step : tensor)
    (decay_steps decay_rate : Q) (staircase : bool)
| TApplyGradients (total_loss : tensor) (optimizer : string)
    (learning_rate : tensor) (global_step : tensor) (clip_gradient_norm : Q)
| TTrainOp (total_loss : tensor) (optimizer : string) (learning_rate : tensor)
    (global_step : tensor) (clip_gradient_norm : Q).

(** [t.get_shape()], where the term tells it; the batch dimension of a
    dequeued tensor is unknown, written -1. *)
Definition get_shape (t : tensor) : option (list Z) :=
  match t with
  | TVar v => Some (shape v)
  | TOut _ s => Some s
  | TReshape _ s => Some s
  | TDequeue q i =>
      match bj_components q with
      | reader0 :: _ =>
          match reader0 !! i with
          | Some (_ :: s) => Some (-1 :: s)
          | _ => None
          end
      | [] => None
      end
  | _ => None
  end.

Definition ndims (t : tensor) : option nat := length <$> get_shape t.

(** [t.get_shape().as_list()[i]]. *)
Definition shape_at (t : tensor) (i : nat) : outcome Z :=
  match get_shape t with
  | Some s => match s !! i with Some d => Ok d | None => Raise IndexError end
  | None => Raise (ValueError "as_list() is not defined on an unknown TensorShape.")
  end.

(** The named collections of the graph. *)
Abbreviation registry := (gmap string (list tensor)).

Definition add_to_collection (key : string) (value : tensor) (g : registry)
    : registry :=
  <[key := default [] (g !! key) ++ [value]]> g.

Definition get_collection (key : string) (g : registry) : list tensor :=
  default [] (g !! key).

(** What [model.create_model] leaves behind: its result dict and the
    variables, regularization losses and update ops it put in the graph. *)
Record model_graph : Type := {
  mg_result : gmap string tensor;
  mg_trainable_variables : list variable;
  mg_regularization_losses : list tensor;
  mg_update_ops : list tensor
}.

(** A reader of the [readers] module. *)
Record reader : Type := {
  reader_class : string;
  num_classes : Z;
  prepare_reader : list (list Z)       (* shapes of the tensors it yields *)
}.

(** The flags of the binary and those of [labels_autoencoder] it reads. *)
Record Flags : Type := {
  FLAGS_train_dir : string;
  FLAGS_train_data_pattern : string;
  FLAGS_feature_names : string;
  FLAGS_feature_sizes : string;
  FLAGS_frame_features : bool;
  FLAGS_frame_only : bool;
  FLAGS_model : string;
  FLAGS_start_new_model : bool;
  FLAGS_batch_size : Z;
  FLAGS_label_loss : string;
  FLAGS_regularization_penalty : Q;
  FLAGS_base_learning_rate : Q;
  FLAGS_learning_rate_decay : Q;
  FLAGS_learning_rate_decay_examples : Q;
  FLAGS_num_epochs : option Z;
  FLAGS_num_readers : Z;
  FLAGS_optimizer : string;
  FLAGS_clip_gradient_norm : Q;
  FLAGS_log_device_placement : bool;
  FLAGS_hidden_size_1 : Z;             (* defined by labels_autoencoder *)
  FLAGS_hidden_size_2 : Z              (* defined by labels_autoencoder *)
}.

(** ** The world of a run and the monad of effects *)

Inductive level : Type := INFO | ERROR.

(** What one call [sess.run([train_op, global_step, loss, ...])] gives
    back, with the metrics [eval_util] computes from it as the log line
    prints them. *)
Record step_values : Type := {
  global_step_val : Z;
  loss_val : string;
  reg_loss_val : string;
  hit_at_one : string;
  perr : string;
  gap : string
}.

Inductive step_event : Type :=
| Step (v : step_values)
| StepFails (e : exn).

Definition is_Step (e : step_event) : bool :=
  match e with Step _ => true | StepFails _ => false end.

Record world : Type := {
  w_glob : string → list string;              (* gfile.Glob *)
  w_files : list string;                      (* paths of the storage *)
  w_delete_fails : string → bool;             (* paths gfile cannot delete *)
  w_checkpoints : gmap string string;         (* directory to latest checkpoint *)
  w_meta_graphs : gmap string registry;       (* collections of a meta graph file *)
  w_create_model : string → tensor → tensor → Z → model_graph;
  w_steps : list step_event;                  (* session calls until the queue is exhausted *)
  w_should_stop : nat → bool;                 (* sv.should_stop() after n steps *)
  w_log : list (level * string);
  w_servers : list (string * option Z);       (* servers started *)
  w_summaries : list (string * Z);            (* add_summary(tag, global step) *)
  w_written : list (string * tensor);         (* what np.savetxt wrote *)
  w_savetxt_fails : tensor → bool             (* values np.savetxt cannot write *)
}.

Definition M (A : Type) : Type := world → world * outcome A.

Definition ret {A} (a : A) : M A := λ w, (w, Ok a).
Definition raise {A} (e : exn) : M A := λ w, (w, Raise e).
Definition blocks {A} : M A := λ w, (w, Blocks).
Definition bind {A B} (m : M A) (k : A → M B) : M B :=
  λ w, match m w with
       | (w', Ok a) => k a w'
       | (w', Raise e) => (w', Raise e)
       | (w', Blocks) => (w', Blocks)
       end.
Definition lift {A} (r : outcome A) : M A := λ w, (w, r).

(** [try: m except E: h], for the exceptions [handles] accepts. *)
Definition try_except {A} (m : M A) (handles : exn → bool) (h : M A) : M A :=
  λ w, match m w with
       | (w', Raise e) => if handles e then h w' else (w', Raise e)
       | r => r
       end.

Declare Scope run_scope.
Delimit Scope run_scope with run.
Notation "x <- m ;; k" := (bind m (λ x, k))
  (at level 100, m at next level, right associativity) : run_scope.
Notation "m ;; k" := (bind m (λ _, k))
  (at level 100, right associativity) : run_scope.
Local Open Scope run_scope.

Definition log (l : level) (msg : string) : M unit :=
  λ w, (let 'Build_world g f d c mg cm st ss lg sv su wr sf := w in
        Build_world g f d c mg cm st ss (lg ++ [(l, msg)]) sv su wr sf, Ok ()).

Definition logging_info := log INFO.
Definition logging_error := log ERROR.

(** The same notation for computations that only raise. *)
Definition outcome_bind {A B} (r : outcome A) (k : A → outcome B) : outcome B :=
  match r with
  | Ok a => k a
  | Raise e => Raise e
  | Blocks => Blocks
  end.

Declare Scope res_scope.
Delimit Scope res_scope with res.
Notation "x <- m ;; k" := (outcome_bind m (λ x, k))
  (at level 100, m at next level, right associativity) : res_scope.

(** [d[key]]. *)
Definition getitem (d : gmap string tensor) (key : string) : outcome tensor :=
  match d !! key with
  | Some v => Ok v
  | None => Raise (KeyError key)
  end.

(** [a, b, c, d = l]. *)
Definition unpack4 (l : list tensor) : outcome (tensor * tensor * tensor * tensor) :=
  match l with
  | [a; b; c; d] => Ok (a, b, c, d)
  | _ => Raise (ValueError "wrong number of values to unpack")
  end.

(** ** The training directory *)

Definition gfile_Glob (pattern : string) : M (list string) :=
  λ w, (w, Ok (w_glob w pattern)).

Definition gfile_Exists (path : string) : M bool :=
  λ w, (w, Ok (bool_decide (path ∈ w_files w))).

(** [os.path.join(dir, "checkpoint")]: the file that holds the checkpoint
    state of [dir], which [tf.train.latest_checkpoint] reads. *)
Fixpoint ends_with_slash (s : string) : bool :=
  match s with
  | EmptyString => false
  | String _ EmptyString => String.eqb s "/"
  | String _ s' => ends_with_slash s'
  end.

Definition checkpoint_state_file (dir : string) : string :=
  if negb (str_truthy dir) then "checkpoint"
  else if ends_with_slash dir then dir +:+ "checkpoint"
  else dir +:+ "/" +:+ "checkpoint".

(** [gfile.DeleteRecursively(dir)]: removes every path under [dir] that
    can be deleted, and raises when one of them could not be, or when
    there is no [dir]; the checkpoint state of [dir] goes with its file. *)
Definition gfile_DeleteRecursively (dir : string) : M unit :=
  λ w, (let 'Build_world g f d c mg cm st ss lg sv su wr sf := w in
        let stays p := negb (String.prefix dir p) || d p in
        let failed := negb (existsb (String.prefix dir) f)
                      || existsb (λ p, String.prefix dir p && d p) f in
        let state :=
          if failed && d (checkpoint_state_file dir) then c else delete dir c in
        (Build_world g (List.filter stays f) d state mg cm st ss lg sv su wr sf,
         if failed then Raise (OpError ("cannot delete " +:+ dir)) else Ok ())).

Definition tf_train_latest_checkpoint (dir : string) : M (option string) :=
  λ w, (w, Ok (w_checkpoints w !! dir)).

Definition tf_train_import_meta_graph (meta_filename : string) : M registry :=
  λ w, match w_meta_graphs w !! meta_filename with
       | Some g => (w, Ok g)
       | None => (w, Raise (IOError ("cannot read " +:+ meta_filename)))
       end.

(** The number of dimensions of the array a session returns for a
    tensor, where the graph fixes it. *)
Fixpoint static_rank (t : tensor) : option nat :=
  match t with
  | TConcat0 a _ => static_rank a
  | _ => ndims t
  end.

(** Values numpy cannot turn into an array of one or two dimensions,
    whatever the session returns: a tensor known to be a scalar or to have
    three dimensions or more, and a Python list with an item known to have
    two dimensions or more (the list is ragged, or stacks to three
    dimensions). *)
Definition not_an_array (value : tensor) : bool :=
  match value with
  | TGroup items =>
      existsb (λ t, match static_rank t with
                    | Some r => bool_decide (2 ≤ r)%nat
                    | None => false
                    end) items
  | t =>
      match static_rank t with
      | Some r => bool_decide (r = 0 ∨ 3 ≤ r)%nat
      | None => false
      end
  end.

(** [np.savetxt(path, value)]: creates the file, then raises ValueError
    when the value is no array of one or two dimensions (by the graph, or
    by what the session returned), and writes it otherwise. *)
Definition np_savetxt (path : string) (value : tensor) : M unit :=
  λ w, (let 'Build_world g f d c mg cm st ss lg sv su wr sf := w in
        if not_an_array value || sf value then
          (Build_world g (f ++ [path]) d c mg cm st ss lg sv su wr sf,
           Raise (ValueError "Expected 1D or 2D array"))
        else
          (Build_world g (f ++ [path]) d c mg cm st ss lg sv su
                       (wr ++ [(path, value)]) sf, Ok ())).

Definition add_summary (tag : string) (global_step : Z) : M unit :=
  λ w, (let 'Build_world g f d c mg cm st ss lg sv su wr sf := w in
        Build_world g f d c mg cm st ss lg sv (su ++ [(tag, global_step)]) wr sf,
        Ok ()).

Definition tf_train_Server (job_name : string) (task_index : option Z) : M unit :=
  λ w, (let 'Build_world g f d c mg cm st ss lg sv su wr sf := w in
        Build_world g f d c mg cm st ss lg (sv ++ [(job_name, task_index)]) su wr
                    sf,
        Ok ()).

Definition create_model (model : pyclass) (model_input num_frames : tensor)
    (vocab_size : Z) : M model_graph :=
  λ w, (w, Ok (w_create_model w (cls_name model) model_input num_frames vocab_size)).

(** Where the session runs and where the graph is placed. *)
Inductive target : Type :=
| LocalTarget                                   (* the empty string *)
| ServerTarget (job_name : string) (task_index : option Z).

Inductive device_fn : Type :=
| NoDevice                                      (* the empty string *)
| ReplicaDeviceSetter (ps_device worker_device : string).

(** [cluster] as a condition: None and the empty ClusterSpec are false. *)
Definition cluster_truthy (cluster : option ClusterSpec) : bool :=
  match cluster with
  | Some c => negb (bool_decide (c = ∅))
  | None => false
  end.

(** The modules the binary imports. *)
Record Modules : Type := {
  labels_autoencoder : pymodule;
  losses : pymodule;
  tf_train : pymodule;
  readers : string → string → string → reader;  (* class, names, sizes *)
  tf_version : string
}.

(** Calling what a module attribute holds: an instance of the class. *)
Definition instantiate (a : attr) : outcome pyclass :=
  match a with
  | AClass c => Ok c
  | AOther _ => Raise (TypeError "object is not callable")
  end.

Section Binary.

Variable FLAGS : Flags.
Variable modules : Modules.

(** ** get_input_data_tensors *)

Definition no_training_files_msg (data_pattern : string) : string :=
  "Unable to find training files. data_pattern='" +:+ data_pattern +:+ "'.".

(** [tf.train.shuffle_batch_join]: one tensor per component of a reader;
    without a reader it raises ValueError. *)
Definition shuffle_batch_join (q : batch_join) : outcome (list tensor) :=
  match bj_components q with
  | [] => Raise (ValueError "Expected at least one input in batch_join().")
  | reader0 :: _ => Ok (TDequeue q <$> seq 0 (length reader0))
  end.

Definition get_input_data_tensors (reader : reader) (data_pattern : string)
    (batch_size : Z) (num_epochs : option Z) (num_readers : Z)
    : M (list tensor) :=
  logging_info ("Using batch size of " +:+ pretty batch_size +:+ " for training.");;
  files <- gfile_Glob data_pattern;;
  if bool_decide (files = []) then
    raise (IOError (no_training_files_msg data_pattern))
  else
    logging_info ("Number of training files: " +:+ pretty (length files) +:+ ".");;
    let training_data :=
      replicate (Z.to_nat num_readers) (prepare_reader reader) in
    lift (shuffle_batch_join
           {| bj_files := files;
              bj_num_epochs := num_epochs;
              bj_shuffle := true;
              bj_components := training_data;
              bj_batch_size := batch_size;
              bj_capacity := FLAGS_batch_size FLAGS * 5;
              bj_min_after_dequeue := FLAGS_batch_size FLAGS;
              bj_allow_smaller_final_batch := true;
              bj_enqueue_many := true |}).

(** ** get_forward_parameters *)

(** [[var for var in t_vars if layer in var.name and kind in var.name]] *)
Definition vars_named (layer kind : string) (t_vars : list variable)
    : list variable :=
  List.filter (λ var, contains layer (name var) && contains kind (name var))
              t_vars.

(** Number of elements of a fully defined shape. *)
Definition num_elements (s : list Z) : Z := foldr Z.mul 1 s.

(** [tf.reshape(var, [1, n])] on a variable, whose shape is fully
    defined: graph construction refuses a size that does not hold the
    elements of the variable; -1 asks for the size to be inferred.  The
    term carries the shape of the result. *)
Definition tf_reshape_row (var : variable) (n : Z) : outcome tensor :=
  let elements := num_elements (shape var) in
  if bool_decide (n = -1) then Ok (TReshape (TVar var) [1; elements])
  else if bool_decide (0 ≤ n ∧ elements = n) then Ok (TReshape (TVar var) [1; n])
  else Raise (ValueError ("Cannot reshape a tensor with " +:+ pretty elements
                          +:+ " elements to shape [1," +:+ pretty n +:+ "]")).

(** Two dimensions that can be the same one; -1 is a dimension not known. *)
Definition dims_compatible (a b : list Z) : bool :=
  bool_decide (length a = length b)
  && forallb (λ xy, bool_decide (xy.1 = xy.2 ∨ xy.1 = -1 ∨ xy.2 = -1)) (zip a b).

(** [tf.concat((a, b), axis=0)]: graph construction refuses scalars,
    tensors of different ranks and tensors that differ in a dimension
    other than the first; shapes it does not know are not checked. *)
Definition tf_concat0 (a b : tensor) : outcome tensor :=
  match get_shape a, get_shape b with
  | Some (_ :: rest_a), Some (_ :: rest_b) =>
      if dims_compatible rest_a rest_b then Ok (TConcat0 a b)
      else Raise (ValueError "Dimensions must be equal")
  | Some [], _ | _, Some [] =>
      Raise (ValueError "Can't concatenate scalars")
  | _, _ => Ok (TConcat0 a b)
  end.

Definition get_forward_parameters (t_vars : list variable) (vocab_size : Z)
    : outcome (list tensor) :=
  (let h1_vars_weight := vars_named "hidden_1" "weights" t_vars in
   let h1_vars_biases := vars_named "hidden_1" "biases" t_vars in
   let h2_vars_weight := vars_named "hidden_2" "weights" t_vars in
   let h2_vars_biases := vars_named "hidden_2" "biases" t_vars in
   let o1_vars_weight := vars_named "output_1" "weights" t_vars in
   let o1_vars_biases := vars_named "output_1" "biases" t_vars in
   let o2_vars_weight := vars_named "output_2" "weights" t_vars in
   let o2_vars_biases := vars_named "output_2" "biases" t_vars in
   h1b <- first h1_vars_biases;;
   h1_vars_biases <- tf_reshape_row h1b (FLAGS_hidden_size_1 FLAGS);;
   h2b <- first h2_vars_biases;;
   h2_vars_biases <- tf_reshape_row h2b (FLAGS_hidden_size_2 FLAGS);;
   o1b <- first o1_vars_biases;;
   o1_vars_biases <- tf_reshape_row o1b (FLAGS_hidden_size_1 FLAGS);;
   o2b <- first o2_vars_biases;;
   o2_vars_biases <- tf_reshape_row o2b vocab_size;;
   h1w <- first h1_vars_weight;;
   vars_1 <- tf_concat0 (TVar h1w) h1_vars_biases;;
   h2w <- first h2_vars_weight;;
   vars_2 <- tf_concat0 (TVar h2w) h2_vars_biases;;
   o1w <- first o1_vars_weight;;
   vars_3 <- tf_concat0 (TVar o1w) o1_vars_biases;;
   o2w <- first o2_vars_weight;;
   vars_4 <- tf_concat0 (TVar o2w) o2_vars_biases;;
   Ok [vars_1; vars_2; vars_3; vars_4])%res.

(** ** build_graph *)

(** Lines 272-274: per-frame predictions are flattened, and the labels
    with them. *)
Definition flatten_frames (predictions labels_batch : tensor)
    : outcome (tensor * tensor) :=
  (if bool_decide (ndims predictions = Some 3%nat) then
     d <- shape_at predictions 2;;
     let predictions := TReshape predictions [-1; d] in
     e <- shape_at labels_batch 2;;
     Ok (predictions, TReshape labels_batch [-1; e])
   else Ok (predictions, labels_batch))%res.

(** Lines 289-294. *)
Definition select_label_loss (result : gmap string tensor) (label_loss_fn : string)
    (predictions predictions_class labels_batch : tensor) : tensor :=
  match result !! "loss" with
  | Some loss => loss
  | None =>
      match result !! "predictions_class" with
      | Some _ =>
          TCalculateLossMix label_loss_fn predictions predictions_class labels_batch
      | None => TCalculateLoss label_loss_fn predictions labels_batch
      end
  end.

(** Lines 312-314: the update ops of the graph and those of the model. *)
Definition collect_update_ops (graph_update_ops : list tensor)
    (result : gmap string tensor) : outcome (list tensor) :=
  match result !! "update_ops" with
  | Some (TGroup ops) => Ok (graph_update_ops ++ ops)
  | Some _ => Raise (TypeError "object is not iterable")
  | None => Ok graph_update_ops
  end.

Definition build_graph (reader : reader) (model : pyclass)
    (train_data_pattern : string) (label_loss_fn : pyclass) (batch_size : Z)
    (base_learning_rate learning_rate_decay_examples learning_rate_decay : Q)
    (optimizer_class : attr) (clip_gradient_norm regularization_penalty : Q)
    (num_readers : Z) (num_epochs : option Z) : M registry :=
  let global_step := TVar {| name := "global_step"; shape := [] |} in
  let learning_rate :=
    TExponentialDecay base_learning_rate (TMul global_step batch_size)
                      learning_rate_decay_examples learning_rate_decay true in
  optimizer <- lift (instantiate optimizer_class);;
  batch <- get_input_data_tensors reader train_data_pattern batch_size
                                  num_epochs num_readers;;
  batch <- lift (unpack4 batch);;
  let '(unused_video_id, model_input_raw, labels_batch, num_frames) := batch in
  mg <- create_model model labels_batch num_frames (num_classes reader);;
  let result := mg_result mg in
  parameters <- lift (get_forward_parameters (mg_trainable_variables mg)
                                             (num_classes reader));;
  predictions <- lift (getitem result "predictions");;
  flat <- lift (flatten_frames predictions labels_batch);;
  let '(predictions, labels_batch) := flat in
  let bottle_neck := default (TConst 0%Q) (result !! "bottleneck") in
  let predictions_class := default predictions (result !! "predictions_class") in
  let sparse_loss := default (TConst 0%Q) (result !! "loss_sparse") in
  let label_loss :=
    select_label_loss result (cls_name label_loss_fn)
                      predictions predictions_class labels_batch in
  let reg_loss := default (TConst 0%Q) (result !! "regularization_loss") in
  let reg_losses := mg_regularization_losses mg in
  let reg_loss :=
    match reg_losses with
    | [] => reg_loss
    | _ => TAdd reg_loss (TAddN reg_losses)
    end in
  update_ops <- lift (collect_update_ops (mg_update_ops mg) result);;
  let label_loss :=
    match update_ops with
    | [] => label_loss
    | _ => TBarrierIdentity update_ops label_loss
    end in
  let final_loss :=
    TAdd (TAdd (TScale regularization_penalty reg_loss) label_loss) sparse_loss in
  (* slim.learning.create_train_op: the optimizer's apply_gradients puts
     its own op in the collection "train_op" (GraphKeys.TRAIN_OP), and
     create_train_op adds the train op it returns *)
  let grad_updates :=
    TApplyGradients final_loss (cls_name optimizer) learning_rate global_step
                    clip_gradient_norm in
  let train_op :=
    TTrainOp final_loss (cls_name optimizer) learning_rate global_step
             clip_gradient_norm in
  let graph :=
    add_to_collection "train_op" train_op
      (add_to_collection "train_op" grad_updates ∅) in
  ret (add_to_collection "parameters" (TGroup parameters)
      (add_to_collection "train_op" train_op
      (add_to_collection "labels" (TCast labels_batch)
      (add_to_collection "num_frames" num_frames
      (add_to_collection "input_batch_raw" model_input_raw
      (add_to_collection "predictions" predictions
      (add_to_collection "bottleneck" bottle_neck
      (add_to_collection "reg_loss" reg_loss
      (add_to_collection "loss" final_loss
      (add_to_collection "global_step" global_step graph)))))))))).

(** ** Servers *)

Definition start_server (cluster : option ClusterSpec) (task : TaskSpec)
    : M target :=
  if negb (str_truthy (type task)) then
    raise (ValueError (task_as_string task +:+ ": The task type must be specified."))
  else if bool_decide (index task = None) then
    raise (ValueError (task_as_string task +:+ ": The task index must be specified."))
  else
    tf_train_Server (type task) (index task);;
    ret (ServerTarget (type task) (index task)).

(** ** The Trainer *)

Definition start_server_if_distributed (self : Trainer) : M (target * device_fn) :=
  if cluster_truthy (self_cluster self) then
    (* the message ends with the cluster as a dict, left out here *)
    logging_info (task_as_string (self_task self)
                  +:+ ": Starting trainer within cluster.");;
    target <- start_server (self_cluster self) (self_task self);;
    let device_fn :=
      ReplicaDeviceSetter "/job:ps" (task_as_string (self_task self)) in
    ret (target, device_fn)
  else ret (LocalTarget, NoDevice).

Definition delete_failed_msg (self : Trainer) (train_dir : string) : string :=
  task_as_string (self_task self) +:+ ": Failed to delete directory "
  +:+ train_dir +:+ " when starting a new model. Please delete it manually and"
  +:+ " try again.".

Definition remove_training_directory (self : Trainer) (train_dir : string)
    : M unit :=
  try_except
    (logging_info (task_as_string (self_task self)
                   +:+ ": Removing existing train directory.");;
     gfile_DeleteRecursively train_dir)
    (λ _, true)                                  (* a bare except *)
    (logging_error (delete_failed_msg self train_dir)).

(** Truth value of [None] or a string. *)
Definition opt_str_truthy (s : option string) : bool :=
  match s with Some s => str_truthy s | None => false end.

Definition get_meta_filename (self : Trainer) (start_new_model : bool)
    (train_dir : string) : M (option string) :=
  if start_new_model then
    logging_info (task_as_string (self_task self)
                  +:+ ": Flag 'start_new_model' is set. Building a new model.");;
    ret None
  else
    latest_checkpoint <- tf_train_latest_checkpoint train_dir;;
    if negb (opt_str_truthy latest_checkpoint) then
      logging_info (task_as_string (self_task self)
                    +:+ ": No checkpoint file found. Building a new model.");;
      ret None
    else
      let meta_filename := default "" latest_checkpoint +:+ ".meta" in
      exists_ <- gfile_Exists meta_filename;;
      if negb exists_ then
        logging_info (task_as_string (self_task self)
                      +:+ ": No meta graph file found. Building a new model.");;
        ret None
      else ret (Some meta_filename).

Definition recover_model (self : Trainer) (meta_filename : string) : M registry :=
  logging_info (task_as_string (self_task self)
                +:+ ": Restoring from meta graph file " +:+ meta_filename);;
  tf_train_import_meta_graph meta_filename.

Definition build_model (self : Trainer) : M registry :=
  let reader :=
    if FLAGS_frame_features FLAGS then
      if FLAGS_frame_only FLAGS then
        readers modules "YT8MFrameFeatureOnlyReader"
                (FLAGS_feature_names FLAGS) (FLAGS_feature_sizes FLAGS)
      else
        readers modules "YT8MFrameFeatureReader"
                (FLAGS_feature_names FLAGS) (FLAGS_feature_sizes FLAGS)
    else
      readers modules "YT8MAggregatedFeatureReader"
              (FLAGS_feature_names FLAGS) (FLAGS_feature_sizes FLAGS) in
  model <- lift (a <- find_class_by_name (FLAGS_model FLAGS)
                                         [labels_autoencoder modules];;
                 instantiate a)%res;;
  label_loss_fn <- lift (a <- find_class_by_name (FLAGS_label_loss FLAGS)
                                                 [losses modules];;
                         instantiate a)%res;;
  optimizer_class <- lift (find_class_by_name (FLAGS_optimizer FLAGS)
                                              [tf_train modules]);;
  graph <- build_graph reader model (FLAGS_train_data_pattern FLAGS)
             label_loss_fn (FLAGS_batch_size FLAGS)
             (FLAGS_base_learning_rate FLAGS)
             (FLAGS_learning_rate_decay_examples FLAGS)
             (FLAGS_learning_rate_decay FLAGS)
             optimizer_class (FLAGS_clip_gradient_norm FLAGS)
             (FLAGS_regularization_penalty FLAGS)
             (FLAGS_num_readers FLAGS) (FLAGS_num_epochs FLAGS);;
  logging_info (task_as_string (self_task self) +:+ ": Built graph.");;
  ret graph.

(** The handles [run] reads back from the collections of the graph. *)
Record handles : Type := {
  h_global_step : tensor;
  h_loss : tensor;
  h_reg_loss : tensor;
  h_predictions : tensor;
  h_labels : tensor;
  h_train_op : tensor;
  h_parameters : list tensor
}.

Definition read_handles (graph : registry) : outcome handles :=
  (global_step <- first (get_collection "global_step" graph);;
   loss <- first (get_collection "loss" graph);;
   reg_loss <- first (get_collection "reg_loss" graph);;
   predictions <- first (get_collection "predictions" graph);;
   labels <- first (get_collection "labels" graph);;
   train_op <- first (get_collection "train_op" graph);;
   let parameters := get_collection "parameters" graph in
   Ok {| h_global_step := global_step; h_loss := loss; h_reg_loss := reg_loss;
         h_predictions := predictions; h_labels := labels;
         h_train_op := train_op; h_parameters := parameters |})%res.

(** Lines 417-442: what the master does with the values of a step. *)
Definition report_step (self : Trainer) (v : step_values) : M unit :=
  logging_info (task_as_string (self_task self)
                +:+ ": training step " +:+ pretty (global_step_val v)
                +:+ "| Hit@1: " +:+ hit_at_one v +:+ " PERR: " +:+ perr v
                +:+ " GAP: " +:+ gap v +:+ " Loss: " +:+ loss_val v
                +:+ " RegLoss: " +:+ reg_loss_val v);;
  add_summary "model/Training_Hit@1" (global_step_val v);;
  add_summary "model/Training_Perr" (global_step_val v);;
  add_summary "model/Training_GAP" (global_step_val v);;
  add_summary "global_step/Examples/Second" (global_step_val v).

(** [while not sv.should_stop(): sess.run(...)], over the session calls
    the input queue still allows; the call after the last one raises
    OutOfRangeError. *)
Fixpoint training_loop (self : Trainer) (should_stop : nat → bool)
    (done : nat) (steps : list step_event) : M unit :=
  if should_stop done then ret ()
  else
    match steps with
    | [] => raise OutOfRangeError
    | StepFails e :: _ => raise e
    | Step v :: rest =>
        (if self_is_master self then report_step self v else ret ());;
        training_loop self should_stop (S done) rest
    end.

(** [for i in range(len(params)): np.savetxt(...)], from index [i]. *)
Fixpoint save_parameters (i : nat) (params : list tensor) : M unit :=
  match params with
  | [] => ret ()
  | p :: rest =>
      np_savetxt (FLAGS_train_dir FLAGS +:+ "autoencoder_layer" +:+ pretty i
                  +:+ ".model") p;;
      save_parameters (S i) rest
  end.

Definition is_OutOfRangeError (e : exn) : bool :=
  match e with OutOfRangeError => true | _ => false end.

(** Lines 406-450 of [Trainer.run]: the managed session, with the
    training loop and the export of the parameters inside one [try]. *)
Definition managed_session (self : Trainer) (h : handles) : M unit :=
  try_except
    (logging_info (task_as_string (self_task self)
                   +:+ ": Entering training loop.");;
     (λ w, training_loop self (w_should_stop w) 0 (w_steps w) w);;
     (* params = sess.run(parameters): the values of the fetched entities *)
     let params := h_parameters h in
     save_parameters 0 params)
    is_OutOfRangeError
    (logging_info (task_as_string (self_task self)
                   +:+ ": Done training -- epoch limit reached.")).

(** Lines 372-453 of [Trainer.run]: everything after the removal of the
    training directory.  The Supervisor is taken to hand out a session:
    the checks of its constructor and the checkpoints and events it
    writes are outside this model. *)
Definition run_from_server (self : Trainer) (start_new_model : bool) : M unit :=
  target_device_fn <- start_server_if_distributed self;;
  meta_filename <- get_meta_filename self start_new_model (self_train_dir self);;
  graph <- (if opt_str_truthy meta_filename then
              recover_model self (default "" meta_filename)
            else build_model self);;
  h <- lift (read_handles graph);;
  logging_info (task_as_string (self_task self) +:+ ": Starting managed session.");;
  managed_session self h;;
  logging_info (task_as_string (self_task self) +:+ ": Exited training loop.").

(** [Trainer.run]. *)
Definition run (self : Trainer) (start_new_model : bool) : M unit :=
  (if self_is_master self && start_new_model then
     remove_training_directory self (self_train_dir self)
   else ret ());;
  run_from_server self start_new_model.

(** ** The parameter server *)

Record ParameterServer : Type := {
  ps_cluster : option ClusterSpec;
  ps_task : TaskSpec
}.

Definition ParameterServer_run (self : ParameterServer) : M unit :=
  logging_info (task_as_string (ps_task self)
                +:+ ": Starting parameter server within cluster.");;
  server <- start_server (ps_cluster self) (ps_task self);;
  blocks.                                        (* server.join() *)

(** ** main *)

(** TF_CONFIG, decoded: the value of its "cluster" key and of its "task"
    key, [None] when the key is missing, null or an empty dict. *)
Record environ : Type := {
  env_cluster : option ClusterSpec;
  env_task : option TaskSpec
}.

Inductive branch : Type := RunTrainer | RunParameterServer | InvalidTaskType.

(** The conditions of the if / elif / else of [main]. *)
Definition dispatch (cluster : option ClusterSpec) (task : TaskSpec) : branch :=
  if negb (cluster_truthy cluster) || String.eqb (type task) "master"
     || String.eqb (type task) "worker" then RunTrainer
  else if String.eqb (type task) "ps" then RunParameterServer
  else InvalidTaskType.

Definition invalid_task_type_msg (task : TaskSpec) : string :=
  task_as_string task +:+ ": Invalid task_type: " +:+ type task +:+ ".".

Definition main (env : environ) : M unit :=
  let cluster_data := env_cluster env in
  let cluster := if cluster_truthy cluster_data then cluster_data else None in
  let task := default {| type := "master"; index := Some 0 |} (env_task env) in
  logging_info (task_as_string task +:+ ": Tensorflow version: "
                +:+ tf_version modules +:+ ".");;
  match dispatch cluster task with
  | RunTrainer =>
      trainer <- lift (Trainer_init cluster task (FLAGS_train_dir FLAGS)
                                    (FLAGS_log_device_placement FLAGS));;
      run trainer (FLAGS_start_new_model FLAGS)
  | RunParameterServer =>
      ParameterServer_run {| ps_cluster := cluster; ps_task := task |}
  | InvalidTaskType => raise (ValueError (invalid_task_type_msg task))
  end.

End Binary.

Arguments get_input_data_tensors FLAGS reader data_pattern batch_size num_epochs
  num_readers _ : rename.

(** ** A sample configuration

    A single-process run of the master over one data file, two batches
    long, with a model of the four layers the export looks for. *)

Definition sample_flags : Flags := {|
  FLAGS_train_dir := "/tmp/yt8m_model/";
  FLAGS_train_data_pattern := "train*.tfrecord";
  FLAGS_feature_names := "mean_rgb";
  FLAGS_feature_sizes := "1024";
  FLAGS_frame_features := false;
  FLAGS_frame_only := false;
  FLAGS_model := "Autoencoder";
  FLAGS_start_new_model := false;
  FLAGS_batch_size := 10;
  FLAGS_label_loss := "CrossEntropyLoss";
  FLAGS_regularization_penalty := 1%Q;
  FLAGS_base_learning_rate := (1 # 1000)%Q;
  FLAGS_learning_rate_decay := (95 # 100)%Q;
  FLAGS_learning_rate_decay_examples := 4000000%Q;
  FLAGS_num_epochs := Some 1;
  FLAGS_num_readers := 2;
  FLAGS_optimizer := "AdamOptimizer";
  FLAGS_clip_gradient_norm := (1 # 10)%Q;
  FLAGS_log_device_placement := false;
  FLAGS_hidden_size_1 := 100;
  FLAGS_hidden_size_2 := 50
|}.

Definition class_of (n super : string) : pyclass :=
  {| cls_name := n; cls_mro := [n; super; "object"] |}.

Definition sample_modules : Modules := {|
  labels_autoencoder :=
    {[ "Autoencoder" := AClass (class_of "Autoencoder" "BaseModel") ]};
  losses :=
    {[ "CrossEntropyLoss" := AClass (class_of "CrossEntropyLoss" "BaseLoss") ]};
  tf_train :=
    {[ "AdamOptimizer" := AClass (class_of "AdamOptimizer" "Optimizer") ]};
  readers := λ c _ _,
    {| reader_class := c; num_classes := 4716;
       prepare_reader := [[1]; [1; 1024]; [1; 4716]; [1]] |};
  tf_version := "1.0.0"
|}.

Definition sample_variables : list variable :=
  [ {| name := "model/hidden_1/weights:0"; shape := [4716; 100] |};
    {| name := "model/hidden_1/biases:0"; shape := [100] |};
    {| name := "model/hidden_2/weights:0"; shape := [100; 50] |};
    {| name := "model/hidden_2/biases:0"; shape := [50] |};
    {| name := "model/output_1/weights:0"; shape := [50; 100] |};
    {| name := "model/output_1/biases:0"; shape := [100] |};
    {| name := "model/output_2/weights:0"; shape := [100; 4716] |};
    {| name := "model/output_2/biases:0"; shape := [4716] |} ].

Definition sample_model_graph : model_graph := {|
  mg_result := {[ "predictions" := TOut "model/predictions" [-1; 4716] ]};
  mg_trainable_variables := sample_variables;
  mg_regularization_losses := [];
  mg_update_ops := []
|}.

Definition sample_step (n : Z) : step_event :=
  Step {| global_step_val := n; loss_val := "0.5"; reg_loss_val := "0.0";
          hit_at_one := "0.10"; perr := "0.10"; gap := "0.10" |}.

Definition sample_world : world := {|
  w_glob := λ p, if String.eqb p "train*.tfrecord" then ["train00.tfrecord"] else [];
  w_files := ["/tmp/yt8m_model/events.out"];
  w_delete_fails := λ _, false;
  w_checkpoints := ∅;
  w_meta_graphs := ∅;
  w_create_model := λ _ _ _ _, sample_model_graph;
  w_steps := [sample_step 1; sample_step 2];
  w_should_stop := λ _, false;
  w_log := [];
  w_servers := [];
  w_summaries := [];
  w_written := [];
  w_savetxt_fails := λ _, false
|}.

(** The same world with a stop request after the first step. *)
Definition stopped_world : world := {|
  w_glob := w_glob sample_world;
  w_files := w_files sample_world;
  w_delete_fails := λ _, false;
  w_checkpoints := ∅;
  w_meta_graphs := ∅;
  w_create_model := w_create_model sample_world;
  w_steps := w_steps sample_world;
  w_should_stop := λ n, bool_decide (1 ≤ n)%nat;
  w_log := [];
  w_servers := [];
  w_summaries := [];
  w_written := [];
  w_savetxt_fails := λ _, false
|}.


Definition sample_master : TaskSpec := {| type := "master"; index := Some 0 |}.

Definition sample_trainer : Trainer := {|
  self_cluster := None;
  self_task := sample_master;
  self_is_master := true;
  self_train_dir := "/tmp/yt8m_model/";
  self_config := false
|}.

Definition sample_environ : environ := {| env_cluster := None; env_task := None |}.

(** A world with a checkpoint and its meta graph file in the training
    directory. *)
Definition recover_world : world := {|
  w_glob := w_glob sample_world;
  w_files := ["/tmp/yt8m_model/model.ckpt-10";
              "/tmp/yt8m_model/model.ckpt-10.meta"];
  w_delete_fails := λ _, false;
  w_checkpoints := {[ "/tmp/yt8m_model/" := "/tmp/yt8m_model/model.ckpt-10" ]};
  w_meta_graphs := {[ "/tmp/yt8m_model/model.ckpt-10.meta" := ∅ ]};
  w_create_model := w_create_model sample_world;
  w_steps := w_steps sample_world;
  w_should_stop := λ _, false;
  w_log := [];
  w_servers := [];
  w_summaries := [];
  w_written := [];
  w_savetxt_fails := λ _, false
|}.

(** The name patterns [get_forward_parameters] filters by. *)
Definition forward_layers : list string :=
  ["hidden_1"; "hidden_2"; "output_1"; "output_2"].
Definition forward_kinds : list string := ["weights"; "biases"].


(** ** Further samples and the vocabulary of the properties *)

(** A cluster of one master and one parameter server. *)
Definition sample_cluster : ClusterSpec :=
  {[ "master" := ["host0:2222"]; "ps" := ["host1:2222"] ]}.

(** The four summaries the master adds for the values of a step, all at
    the global step of that step. *)
Definition step_summaries (v : step_values) : list (string * Z) :=
  [ ("model/Training_Hit@1", global_step_val v);
    ("model/Training_Perr", global_step_val v);
    ("model/Training_GAP", global_step_val v);
    ("global_step/Examples/Second", global_step_val v) ].

(** The session calls a training loop gets values from: the successful
    calls before the first stop request, the first failing call or the
    end of the script, whichever comes first. *)
Fixpoint executed (should_stop : nat → bool) (done : nat)
    (steps : list step_event) : list step_values :=
  if should_stop done then []
  else
    match steps with
    | Step v :: rest => v :: executed should_stop (S done) rest
    | _ => []
    end.


Definition sample_worker : Trainer := {|
  self_cluster := None;
  self_task := {| type := "worker"; index := Some 1 |};
  self_is_master := false;
  self_train_dir := "/tmp/yt8m_model/";
  self_config := false
|}.

(** The sample world with a session call that fails after the first step. *)
Definition failing_world : world := {|
  w_glob := w_glob sample_world;
  w_files := w_files sample_world;
  w_delete_fails := λ _, false;
  w_checkpoints := ∅;
  w_meta_graphs := ∅;
  w_create_model := w_create_model sample_world;
  w_steps := [sample_step 1; StepFails (OpError "Nan in summary histogram")];
  w_should_stop := λ _, false;
  w_log := [];
  w_servers := [];
  w_summaries := [];
  w_written := [];
  w_savetxt_fails := λ _, false
|}.

(** Handles of a graph whose "parameters" collection holds two variables,
    a matrix and a vector. *)
Definition sample_handles : handles := {|
  h_global_step := TVar {| name := "global_step"; shape := [] |};
  h_loss := TConst 0;
  h_reg_loss := TConst 0;
  h_predictions := TOut "model/predictions" [-1; 4716];
  h_labels := TConst 0;
  h_train_op := TConst 0;
  h_parameters :=
    [ TVar {| name := "model/hidden_1/weights:0"; shape := [4716; 100] |};
      TVar {| name := "model/hidden_1/biases:0"; shape := [100] |} ]
|}.

(** The collections [Trainer.run] reads with [[0]]. *)
Definition handle_keys : list string :=
  ["global_step"; "loss"; "reg_loss"; "predictions"; "labels"; "train_op"].

(** The collections [build_graph] adds to. *)
Definition graph_keys : list string :=
  ["global_step"; "loss"; "reg_loss"; "bottleneck"; "predictions";
   "input_batch_raw"; "num_frames"; "labels"; "train_op"; "parameters"].

(** A computation respects a relation between the world it starts in and
    the world it leaves, whatever its outcome. *)
Definition respects (R : world → world → Prop) {A} (m : M A) : Prop :=
  ∀ w, R w (m w).1.

Definition same_summaries (w w' : world) : Prop := w_summaries w' = w_summaries w.
Definition same_servers (w w' : world) : Prop := w_servers w' = w_servers w.

(** [sub] occurs in [s]: some text, then [sub], then some text. *)
Definition occurs_in (sub s : string) : Prop :=
  ∃ pre post, s = pre +:+ sub +:+ post.

(** The variables of a group: those whose name has the name of the layer
    and the kind in it. *)
Definition in_group (layer kind : string) (var : variable) : Prop :=
  occurs_in layer (name var) ∧ occurs_in kind (name var).

(** [var] is the first variable of the group in [t_vars]. *)
Definition first_in_group (layer kind : string) (t_vars : list variable)
    (var : variable) : Prop :=
  ∃ before after,
    t_vars = before ++ var :: after
    ∧ in_group layer kind var
    ∧ Forall (λ u, ¬ in_group layer kind u) before.

(** A layer [n] wide: the biases have [n] elements and the weights are a
    matrix of [n] columns. *)
Definition fits_layer (weights biases : variable) (n : Z) : Prop :=
  0 ≤ n ∧ num_elements (shape biases) = n ∧ ∃ rows, shape weights = [rows; n].

(** The sample variables, with biases of the first hidden layer that do
    not fill a row of hidden_size_1 = 100 columns. *)
Definition ill_shaped_variables : list variable :=
  [ {| name := "model/hidden_1/weights:0"; shape := [4716; 100] |};
    {| name := "model/hidden_1/biases:0"; shape := [64] |};
    {| name := "model/hidden_2/weights:0"; shape := [100; 50] |};
    {| name := "model/hidden_2/biases:0"; shape := [50] |};
    {| name := "model/output_1/weights:0"; shape := [50; 100] |};
    {| name := "model/output_1/biases:0"; shape := [100] |};
    {| name := "model/output_2/weights:0"; shape := [100; 4716] |};
    {| name := "model/output_2/biases:0"; shape := [4716] |} ].

(** The errors of graph construction in [get_forward_parameters]. *)
Definition index_or_value_error {A} (r : outcome A) : Prop :=
  match r with
  | Ok _ => True
  | Raise e => e = IndexError ∨ ∃ msg, e = ValueError msg
  | Blocks => False
  end.




(** * Properties *)

(** ** The monad *)

Lemma bind_ok {A B} (m : M A) (k : A → M B) w w1 a :
  m w = (w1, Ok a) → bind m k w = k a w1.
Proof. intros H. unfold bind. by rewrite H. Qed.

Lemma bind_raise {A B} (m : M A) (k : A → M B) w w1 e :
  m w = (w1, Raise e) → bind m k w = (w1, Raise e).
Proof. intros H. unfold bind. by rewrite H. Qed.

Lemma bind_ok_inv {A B} (m : M A) (k : A → M B) w w' b :
  bind m k w = (w', Ok b) → ∃ w1 a, m w = (w1, Ok a) ∧ k a w1 = (w', Ok b).
Proof.
  unfold bind. destruct (m w) as [w1 [a | e |]]; intros H; [eauto | done | done].
Qed.

Lemma lift_ok_inv {A} (r : outcome A) w w' a :
  lift r w = (w', Ok a) → r = Ok a ∧ w' = w.
Proof. unfold lift. by intros [= -> ->]. Qed.

(** ** Trainer.__init__ *)

(** The guard of the constructor can never hold: [is_master] already
    says that the index is 0. *)
Lemma Trainer_init_guard_dead (task : TaskSpec) :
  (String.eqb (type task) "master" && index_eq (index task) 0)
  && index_gt (index task) 0 = false.
Proof.
  destruct (index task) as [z |]; simpl; [| by rewrite andb_false_r].
  destruct (String.eqb (type task) "master"); simpl; [| done].
  destruct (Z.eqb_spec z 0) as [-> | ?]; simpl; [done | done].
Qed.

Lemma Trainer_init_never_raises cluster task train_dir log_device_placement :
  Trainer_init cluster task train_dir log_device_placement
  = Ok {| self_cluster := cluster;
          self_task := task;
          self_is_master := String.eqb (type task) "master"
                            && index_eq (index task) 0;
          self_train_dir := train_dir;
          self_config := log_device_placement |}.
Proof.
  unfold Trainer_init. cbn [self_is_master self_task].
  by rewrite Trainer_init_guard_dead.
Qed.

(** C1, as the code has it: for a task of type "master" with a strictly
    positive index the constructor raises nothing; it returns a Trainer
    that is not the master.  (The claim asks for an initialization error
    there; the constructor for master, index 0 does return without error.) *)
Theorem Trainer_init_second_master_accepted
    (cluster : option ClusterSpec) (i : Z) (train_dir : string) (ldp : bool) :
  0 < i →
  Trainer_init cluster {| type := "master"; index := Some i |} train_dir ldp
  = Ok {| self_cluster := cluster;
          self_task := {| type := "master"; index := Some i |};
          self_is_master := false;
          self_train_dir := train_dir;
          self_config := ldp |}.
Proof.
  intros Hi. rewrite Trainer_init_never_raises. cbn.
  destruct (Z.eqb_spec i 0); [lia | done].
Qed.

Lemma Trainer_init_second_master_accepted_witness :
  0 < 1 ∧
  Trainer_init None {| type := "master"; index := Some 1 |} "/tmp/yt8m_model/" true
  = Ok {| self_cluster := None;
          self_task := {| type := "master"; index := Some 1 |};
          self_is_master := false;
          self_train_dir := "/tmp/yt8m_model/";
          self_config := true |}.
Proof.
  split; [lia |].
  apply (Trainer_init_second_master_accepted None 1 "/tmp/yt8m_model/" true). lia.
Defined.

Example Trainer_init_sole_master :
  Trainer_init None sample_master "/tmp/yt8m_model/" false = Ok sample_trainer.
Proof. reflexivity. Qed.

(** ** Component lookup *)

Lemma next_truthy_skips_undefined (pre : list (option attr)) rest :
  Forall (λ a, a = None) pre → next_truthy (pre ++ rest) = next_truthy rest.
Proof. induction 1 as [| a pre -> _ IH]; [done | by cbn]. Qed.

Lemma validate_candidates_skips_undefined (pre : list (option attr)) rest
    flag_value category super :
  Forall (λ a, a = None) pre →
  validate_candidates (pre ++ rest) flag_value category super
  = validate_candidates rest flag_value category super.
Proof. induction 1 as [| a pre -> _ IH]; [done | by cbn]. Qed.

Lemma getattr_undefined (name : string) (pre : list pymodule) :
  Forall (λ m, m !! name = None) pre →
  Forall (λ a, a = None) ((λ module, getattr module name) <$> pre).
Proof. intros H. apply Forall_fmap. by eapply Forall_impl. Qed.

(** X1: [validate_class_name] returns True when the first module that
    defines the name binds it to a class of the family.  In the two cases
    for which it was written to raise a FlagsError (the class is outside
    the family; no module defines the name) the raise statement itself
    fails: the flags module has no FlagsError, and the caller gets an
    AttributeError that names neither category nor flag value. *)
Lemma validate_class_name_contract (flag_value category super : string)
    (pre post : list pymodule) (m : pymodule) (c : pyclass) :
  Forall (λ m', m' !! flag_value = None) pre →
  (m !! flag_value = Some (AClass c) →
     (super ∉ cls_mro c →
        validate_class_name flag_value category (pre ++ m :: post) super
        = Raise (AttributeError "FlagsError"))
     ∧ (super ∈ cls_mro c →
        validate_class_name flag_value category (pre ++ m :: post) super
        = Ok true))
  ∧ validate_class_name flag_value category pre super
    = Raise (AttributeError "FlagsError").
Proof.
  intros Hpre. apply getattr_undefined in Hpre. unfold validate_class_name.
  split.
  - intros Hm. rewrite fmap_app, validate_candidates_skips_undefined by done.
    change (m !! flag_value) with (getattr m flag_value) in Hm.
    cbn. rewrite !Hm. cbn.
    split; intros Hc.
    + by rewrite bool_decide_eq_false_2.
    + by rewrite bool_decide_eq_true_2.
  - rewrite <- (app_nil_r (_ <$> pre)).
    by rewrite validate_candidates_skips_undefined.
Qed.

(** C3, as the code has it: the lookup [build_model] runs at startup,
    [find_class_by_name], hands back the class the first defining module
    binds the name to whatever that class inherits from, and ends in a
    bare StopIteration when no module defines the name.  (The claim asks
    for a configuration error naming capability and family, and for a
    not-found error naming the capability; those are the errors the
    docstring and the messages of [validate_class_name] describe, and
    nothing calls it.) *)
Theorem find_class_by_name_checks_nothing (name : string)
    (pre post : list pymodule) (m : pymodule) (c : pyclass) :
  Forall (λ m', m' !! name = None) pre →
  (m !! name = Some (AClass c) →
     find_class_by_name name (pre ++ m :: post) = Ok (AClass c))
  ∧ find_class_by_name name pre = Raise StopIteration.
Proof.
  intros Hpre. apply getattr_undefined in Hpre. unfold find_class_by_name.
  split.
  - intros Hm. rewrite fmap_app, next_truthy_skips_undefined by done.
    change (m !! name) with (getattr m name) in Hm.
    cbn. by rewrite Hm.
  - rewrite <- (app_nil_r (_ <$> pre)). by rewrite next_truthy_skips_undefined.
Qed.

Lemma find_class_by_name_checks_nothing_witness :
  let rogue := {| cls_name := "Rogue"; cls_mro := ["Rogue"; "object"] |} in
  let m : pymodule := {[ "Rogue" := AClass rogue ]} in
  ("BaseModel" ∉ cls_mro rogue)
  ∧ find_class_by_name "Rogue" [∅; m] = Ok (AClass rogue)
  ∧ find_class_by_name "Rogue" [∅] = Raise StopIteration
  ∧ validate_class_name "Rogue" "model" [∅; m] "BaseModel"
    = Raise (AttributeError "FlagsError")
  ∧ validate_class_name "Rogue" "model" [∅] "BaseModel"
    = Raise (AttributeError "FlagsError").
Proof.
  intros rogue m.
  assert (Hpre : Forall (λ m' : pymodule, m' !! "Rogue" = None) [∅])
    by (repeat constructor).
  assert (Hm : m !! "Rogue" = Some (AClass rogue)) by reflexivity.
  destruct (find_class_by_name_checks_nothing "Rogue" [∅] [] m rogue Hpre)
    as [Hfound Habsent].
  split; [apply (bool_decide_eq_false_1 ("BaseModel" ∈ cls_mro rogue)); reflexivity |].
  split; [exact (Hfound Hm) |].
  split; [exact Habsent |].
  split; reflexivity.
Defined.

(** ** The input pipeline *)

Lemma contains_unfold (sub s : string) :
  contains sub s
  = String.prefix sub s
    || match s with EmptyString => false | String _ s' => contains sub s' end.
Proof. by destruct s. Qed.

Lemma prefix_append (p b : string) : String.prefix p (p +:+ b) = true.
Proof.
  induction p as [| a p IH].
  - change ("" +:+ b) with b. by destruct b.
  - change (String a p +:+ b) with (String a (p +:+ b)).
    cbn [String.prefix]. by destruct (Ascii.ascii_dec a a).
Qed.

Lemma contains_append (a p b : string) : contains p (a +:+ p +:+ b) = true.
Proof.
  induction a as [| c a IH].
  - change ("" +:+ p +:+ b) with (p +:+ b).
    by rewrite contains_unfold, prefix_append.
  - change (String c a +:+ p +:+ b) with (String c (a +:+ p +:+ b)).
    rewrite contains_unfold, IH. apply orb_true_r.
Qed.



(** ** The recovery decision *)

Lemma meta_filename_truthy (s : string) : str_truthy (s +:+ ".meta") = true.
Proof. by destruct s. Qed.

(** C6: [get_meta_filename] returns None (a fresh start) exactly when
    the fresh-start flag is set, or the training directory has no latest
    checkpoint, or the file named after that checkpoint with ".meta"
    appended does not exist; in every other case it returns that file
    name, which [run] then takes as the order to recover. *)
Theorem get_meta_filename_decision (self : Trainer) (start_new_model : bool)
    (train_dir : string) (w : world) :
  let latest := w_checkpoints w !! train_dir in
  let meta := default "" latest +:+ ".meta" in
  ∃ decision,
    snd (get_meta_filename self start_new_model train_dir w) = Ok decision
    ∧ (decision = None ↔
         start_new_model = true ∨ opt_str_truthy latest = false
         ∨ meta ∉ w_files w)
    ∧ (decision ≠ None →
         decision = Some meta ∧ opt_str_truthy decision = true).
Proof.
  intros latest meta.
  unfold get_meta_filename, bind, logging_info, log, ret,
    tf_train_latest_checkpoint, gfile_Exists.
  destruct w as [g f d c mg cm st ss lg sv su wr sf]. cbn in *.
  destruct start_new_model; cbn.
  { exists None. split; [done |]. split; [| done]. split; auto. }
  fold latest. destruct (opt_str_truthy latest) eqn:Hl; cbn.
  2:{ exists None. split; [done |]. split; [| done]. split; auto. }
  fold meta. destruct (decide (meta ∈ f)) as [Hin | Hnin].
  - rewrite bool_decide_eq_true_2 by done. cbn.
    exists (Some meta). split; [done |]. split.
    + split; [done |]. intros [? | [? | ?]]; done.
    + intros _. split; [done |]. apply meta_filename_truthy.
  - rewrite bool_decide_eq_false_2 by done. cbn.
    exists None. split; [done |]. split; [| done]. split; auto.
Qed.

Lemma get_meta_filename_decision_witness :
  snd (get_meta_filename sample_trainer false "/tmp/yt8m_model/" recover_world)
  = Ok (Some "/tmp/yt8m_model/model.ckpt-10.meta")
  ∧ snd (get_meta_filename sample_trainer false "/tmp/yt8m_model/" sample_world)
    = Ok None.
Proof.
  split.
  - destruct (get_meta_filename_decision sample_trainer false "/tmp/yt8m_model/"
                recover_world) as (decision & -> & Hnone & Hsome).
    destruct decision as [d |].
    + assert (Hd : Some d ≠ None) by discriminate.
      destruct (Hsome Hd) as [-> _]. reflexivity.
    + exfalso. destruct Hnone as [Hnone _].
      destruct (Hnone eq_refl) as [? | [? | Hnin]]; [done | done |].
      apply Hnin. apply list_elem_of_further, list_elem_of_here.
  - destruct (get_meta_filename_decision sample_trainer false "/tmp/yt8m_model/"
                sample_world) as (decision & -> & Hnone & _).
    f_equal. apply Hnone. right. left. reflexivity.
Defined.

(** ** Forward parameters *)

Lemma prefix_occurs (p s : string) :
  String.prefix p s = true → ∃ post, s = p +:+ post.
Proof.
  revert s. induction p as [| a p IH]; intros s H.
  - exists s. reflexivity.
  - destruct s as [| b s]; [discriminate H |]. cbn [String.prefix] in H.
    destruct (Ascii.ascii_dec a b) as [-> | ?]; [| discriminate H].
    destruct (IH s H) as [post ->]. exists post. reflexivity.
Qed.

(** The test [sub in s] of the code says that [sub] occurs in [s]. *)
Lemma contains_occurs (sub s : string) :
  contains sub s = true ↔ occurs_in sub s.
Proof.
  split.
  - induction s as [| a s IH]; rewrite contains_unfold; intros H.
    + rewrite orb_false_r in H. apply prefix_occurs in H as [post ->].
      exists "", post. reflexivity.
    + apply orb_true_iff in H as [H | H].
      * apply prefix_occurs in H as [post ->]. exists "", post. reflexivity.
      * destruct (IH H) as (pre & post & ->). exists (String a pre), post.
        reflexivity.
  - intros (pre & post & ->). apply contains_append.
Qed.

Lemma vars_named_in_group (layer kind : string) (var : variable) :
  contains layer (name var) && contains kind (name var) = true
  ↔ in_group layer kind var.
Proof.
  unfold in_group. rewrite andb_true_iff, !contains_occurs. reflexivity.
Qed.

Lemma vars_named_none (layer kind : string) (t_vars : list variable) :
  Forall (λ u, ¬ in_group layer kind u) t_vars →
  vars_named layer kind t_vars = [].
Proof.
  induction 1 as [| u t_vars Hu _ IH]; [reflexivity |].
  unfold vars_named in *. cbn [List.filter].
  destruct (contains layer (name u) && contains kind (name u)) eqn:E; [| exact IH].
  apply vars_named_in_group in E. contradiction.
Qed.

Lemma vars_named_first (layer kind : string) (t_vars : list variable)
    (var : variable) :
  first_in_group layer kind t_vars var →
  first (vars_named layer kind t_vars) = Ok var.
Proof.
  intros (before & after & -> & Hin & Hbefore).
  apply vars_named_none in Hbefore. unfold vars_named in *.
  rewrite List.filter_app, Hbefore. cbn [List.filter app].
  apply vars_named_in_group in Hin. rewrite Hin. reflexivity.
Qed.

Lemma vars_named_member (layer kind : string) (t_vars : list variable) :
  vars_named layer kind t_vars ≠ [] →
  ∃ var, var ∈ t_vars ∧ in_group layer kind var.
Proof.
  unfold vars_named. destruct (List.filter _ t_vars) as [| var l] eqn:E; [done |].
  intros _. exists var.
  assert (Hin : In var (List.filter
                          (λ var, contains layer (name var)
                                  && contains kind (name var)) t_vars))
    by (rewrite E; left; reflexivity).
  apply filter_In in Hin as [Hin Hvar].
  split; [by apply list_elem_of_In | by apply vars_named_in_group].
Qed.

Lemma outcome_bind_ok_inv {A B} (r : outcome A) (k : A → outcome B) (b : B) :
  outcome_bind r k = Ok b → ∃ a, r = Ok a ∧ k a = Ok b.
Proof. destruct r as [a | e |]; [eauto | done | done]. Qed.

Lemma index_or_value_error_bind {A B} (r : outcome A) (k : A → outcome B) :
  index_or_value_error r → (∀ a, index_or_value_error (k a)) →
  index_or_value_error (outcome_bind r k).
Proof. destruct r as [a | e |]; cbn; auto. Qed.

Lemma index_or_value_error_first {A} (l : list A) :
  index_or_value_error (first l).
Proof. destruct l; cbn; auto. Qed.

Lemma index_or_value_error_reshape (var : variable) (n : Z) :
  index_or_value_error (tf_reshape_row var n).
Proof.
  unfold tf_reshape_row. repeat case_bool_decide; cbn; eauto.
Qed.

Lemma index_or_value_error_concat (a b : tensor) :
  index_or_value_error (tf_concat0 a b).
Proof.
  unfold tf_concat0.
  destruct (get_shape a) as [[| ? ?] |], (get_shape b) as [[| ? ?] |];
    cbn; eauto.
  destruct (dims_compatible _ _); cbn; eauto.
Qed.

Lemma get_forward_parameters_errors (FLAGS : Flags) (t_vars : list variable)
    (vocab_size : Z) :
  index_or_value_error (get_forward_parameters FLAGS t_vars vocab_size).
Proof.
  unfold get_forward_parameters. cbv zeta.
  repeat (apply index_or_value_error_bind;
          [first [apply index_or_value_error_first
                 | apply index_or_value_error_reshape
                 | apply index_or_value_error_concat] | intros ?]).
  exact I.
Qed.

Lemma tf_reshape_row_ok (var : variable) (n : Z) (row : tensor) :
  tf_reshape_row var n = Ok row → ∃ width, row = TReshape (TVar var) [1; width].
Proof.
  unfold tf_reshape_row. repeat case_bool_decide; intros [= <-]; eauto.
Qed.

Lemma tf_concat0_row_ok (weights : variable) (t : tensor) (width : Z)
    (p : tensor) :
  tf_concat0 (TVar weights) (TReshape t [1; width]) = Ok p →
  p = TConcat0 (TVar weights) (TReshape t [1; width])
  ∧ static_rank p = Some 2%nat.
Proof.
  unfold tf_concat0. cbn [get_shape].
  destruct (shape weights) as [| rows rest] eqn:Hs; [done |].
  destruct (dims_compatible rest [width]) eqn:Hc; [| done].
  intros [= <-]. split; [reflexivity |].
  cbn [static_rank]. unfold ndims. cbn [get_shape fmap option_fmap option_map].
  rewrite Hs. unfold dims_compatible in Hc.
  apply andb_true_iff in Hc as [Hlen _]. apply bool_decide_eq_true_1 in Hlen.
  cbn in *. by rewrite Hlen.
Qed.

(** What [get_forward_parameters] has found when it returns a list. *)
Lemma get_forward_parameters_inversion (FLAGS : Flags)
    (t_vars : list variable) (vocab_size : Z) (parameters : list tensor) :
  get_forward_parameters FLAGS t_vars vocab_size = Ok parameters →
  (∀ layer kind, layer ∈ forward_layers → kind ∈ forward_kinds →
                 vars_named layer kind t_vars ≠ [])
  ∧ ∃ p1 p2 p3 p4,
      parameters = [p1; p2; p3; p4]
      ∧ Forall (λ p, static_rank p = Some 2%nat) parameters.
Proof.
  unfold get_forward_parameters. cbv zeta. intros H.
  apply outcome_bind_ok_inv in H as (h1b & E1 & H).
  apply outcome_bind_ok_inv in H as (r1 & R1 & H).
  apply outcome_bind_ok_inv in H as (h2b & E2 & H).
  apply outcome_bind_ok_inv in H as (r2 & R2 & H).
  apply outcome_bind_ok_inv in H as (o1b & E3 & H).
  apply outcome_bind_ok_inv in H as (r3 & R3 & H).
  apply outcome_bind_ok_inv in H as (o2b & E4 & H).
  apply outcome_bind_ok_inv in H as (r4 & R4 & H).
  apply outcome_bind_ok_inv in H as (h1w & E5 & H).
  apply outcome_bind_ok_inv in H as (p1 & C1 & H).
  apply outcome_bind_ok_inv in H as (h2w & E6 & H).
  apply outcome_bind_ok_inv in H as (p2 & C2 & H).
  apply outcome_bind_ok_inv in H as (o1w & E7 & H).
  apply outcome_bind_ok_inv in H as (p3 & C3 & H).
  apply outcome_bind_ok_inv in H as (o2w & E8 & H).
  apply outcome_bind_ok_inv in H as (p4 & C4 & H).
  injection H as <-. split.
  - intros layer kind Hl Hk. unfold forward_layers, forward_kinds in *.
    repeat (apply elem_of_cons in Hl as [-> | Hl]);
      try (by apply elem_of_nil in Hl);
      repeat (apply elem_of_cons in Hk as [-> | Hk]);
      try (by apply elem_of_nil in Hk);
      intros Hnil; rewrite Hnil in *; discriminate.
  - apply tf_reshape_row_ok in R1 as [w1 ->], R2 as [w2 ->], R3 as [w3 ->],
      R4 as [w4 ->].
    apply tf_concat0_row_ok in C1 as [_ ?], C2 as [_ ?], C3 as [_ ?],
      C4 as [_ ?].
    exists p1, p2, p3, p4. split; [reflexivity |]. by repeat constructor.
Qed.

Lemma tf_reshape_row_fits (var : variable) (n : Z) :
  0 ≤ n → num_elements (shape var) = n →
  tf_reshape_row var n = Ok (TReshape (TVar var) [1; n]).
Proof.
  intros Hn He. unfold tf_reshape_row.
  rewrite bool_decide_eq_false_2 by lia.
  by rewrite bool_decide_eq_true_2.
Qed.

Lemma tf_concat0_fits (weights : variable) (t : tensor) (rows n : Z) :
  shape weights = [rows; n] →
  tf_concat0 (TVar weights) (TReshape t [1; n])
  = Ok (TConcat0 (TVar weights) (TReshape t [1; n])).
Proof.
  intros Hs. unfold tf_concat0. cbn [get_shape]. rewrite Hs.
  unfold dims_compatible. cbn. rewrite !bool_decide_eq_true_2 by auto.
  reflexivity.
Qed.

(** C9, counterexample: every one of the eight groups has a matching
    variable, but the first biases of hidden_1 have 64 elements where
    hidden_size_1 is 100: graph construction refuses the reshape and no
    list of four matrices is returned. *)
Lemma matched_groups_ill_shaped_bias :
  (∀ layer kind, layer ∈ forward_layers → kind ∈ forward_kinds →
                 ∃ var, var ∈ ill_shaped_variables ∧ in_group layer kind var)
  ∧ FLAGS_hidden_size_1 sample_flags = 100
  ∧ get_forward_parameters sample_flags ill_shaped_variables 4716
    = Raise (ValueError
               "Cannot reshape a tensor with 64 elements to shape [1,100]").
Proof.
  split; [| split; [reflexivity | vm_compute; reflexivity]].
  intros layer kind Hl Hk. apply vars_named_member.
  unfold forward_layers, forward_kinds in *.
  repeat (apply elem_of_cons in Hl as [-> | Hl]);
    try (by apply elem_of_nil in Hl);
    repeat (apply elem_of_cons in Hk as [-> | Hk]);
    try (by apply elem_of_nil in Hk).
  all: vm_compute; discriminate.
Qed.

(** C9, amended: when one of the eight groups of variables (hidden_1,
    hidden_2, output_1, output_2 crossed with weights, biases) has no
    variable whose name holds both words, [get_forward_parameters] returns
    no list: it raises IndexError, or the ValueError of an ill-shaped
    variable it met before.  When every group has a first variable, and in
    each layer the first biases have as many elements as the layer is wide
    (hidden_size_1, hidden_size_2, hidden_size_1, vocab_size) and the
    first weights are a matrix of that many columns, it returns exactly
    four tensors, each the first weights of a layer concatenated with its
    first biases reshaped to one row. *)
Theorem get_forward_parameters_fails_fast (FLAGS : Flags)
    (t_vars : list variable) (vocab_size : Z) :
  ((∃ layer kind, layer ∈ forward_layers ∧ kind ∈ forward_kinds
                  ∧ Forall (λ var, ¬ in_group layer kind var) t_vars) →
     ∃ e, get_forward_parameters FLAGS t_vars vocab_size = Raise e
          ∧ (e = IndexError ∨ ∃ msg, e = ValueError msg))
  ∧ (∀ h1w h1b h2w h2b o1w o1b o2w o2b,
       first_in_group "hidden_1" "weights" t_vars h1w →
       first_in_group "hidden_1" "biases" t_vars h1b →
       first_in_group "hidden_2" "weights" t_vars h2w →
       first_in_group "hidden_2" "biases" t_vars h2b →
       first_in_group "output_1" "weights" t_vars o1w →
       first_in_group "output_1" "biases" t_vars o1b →
       first_in_group "output_2" "weights" t_vars o2w →
       first_in_group "output_2" "biases" t_vars o2b →
       fits_layer h1w h1b (FLAGS_hidden_size_1 FLAGS) →
       fits_layer h2w h2b (FLAGS_hidden_size_2 FLAGS) →
       fits_layer o1w o1b (FLAGS_hidden_size_1 FLAGS) →
       fits_layer o2w o2b vocab_size →
       get_forward_parameters FLAGS t_vars vocab_size
       = Ok [ TConcat0 (TVar h1w)
                (TReshape (TVar h1b) [1; FLAGS_hidden_size_1 FLAGS]);
              TConcat0 (TVar h2w)
                (TReshape (TVar h2b) [1; FLAGS_hidden_size_2 FLAGS]);
              TConcat0 (TVar o1w)
                (TReshape (TVar o1b) [1; FLAGS_hidden_size_1 FLAGS]);
              TConcat0 (TVar o2w) (TReshape (TVar o2b) [1; vocab_size]) ]).
Proof.
  split.
  - intros (layer & kind & Hl & Hk & Hnone).
    apply vars_named_none in Hnone.
    pose proof (get_forward_parameters_errors FLAGS t_vars vocab_size) as Herr.
    destruct (get_forward_parameters FLAGS t_vars vocab_size)
      as [parameters | e |] eqn:E; [| eauto | done].
    apply get_forward_parameters_inversion in E as [Hall _].
    destruct (Hall layer kind Hl Hk Hnone).
  - intros h1w h1b h2w h2b o1w o1b o2w o2b F1 F2 F3 F4 F5 F6 F7 F8
      (N1 & B1 & r1 & W1) (N2 & B2 & r2 & W2) (N3 & B3 & r3 & W3)
      (N4 & B4 & r4 & W4).
    apply vars_named_first in F1, F2, F3, F4, F5, F6, F7, F8.
    unfold get_forward_parameters. cbv zeta.
    rewrite F1, F2, F3, F4, F5, F6, F7, F8. cbn [outcome_bind].
    rewrite (tf_reshape_row_fits h1b _ N1 B1). cbn [outcome_bind].
    rewrite (tf_reshape_row_fits h2b _ N2 B2). cbn [outcome_bind].
    rewrite (tf_reshape_row_fits o1b _ N3 B3). cbn [outcome_bind].
    rewrite (tf_reshape_row_fits o2b _ N4 B4). cbn [outcome_bind].
    rewrite (tf_concat0_fits h1w _ _ _ W1). cbn [outcome_bind].
    rewrite (tf_concat0_fits h2w _ _ _ W2). cbn [outcome_bind].
    rewrite (tf_concat0_fits o1w _ _ _ W3). cbn [outcome_bind].
    rewrite (tf_concat0_fits o2w _ _ _ W4). reflexivity.
Qed.

Ltac first_of_group k :=
  exists (take k sample_variables), (drop (S k) sample_variables);
  split; [reflexivity |];
  split; [apply vars_named_in_group; vm_compute; reflexivity |];
  cbn [take drop sample_variables];
  repeat (constructor;
          [intros Hg; apply vars_named_in_group in Hg; vm_compute in Hg;
           discriminate Hg |]);
  constructor.

Lemma get_forward_parameters_fails_fast_witness :
  (∃ e, get_forward_parameters sample_flags [] 4716 = Raise e)
  ∧ ∃ vars_1 vars_2 vars_3 vars_4,
      get_forward_parameters sample_flags sample_variables 4716
      = Ok [vars_1; vars_2; vars_3; vars_4].
Proof.
  split.
  - destruct (proj1 (get_forward_parameters_fails_fast sample_flags [] 4716))
      as (e & He & _); [| eauto].
    exists "hidden_1", "weights". unfold forward_layers, forward_kinds.
    split; [apply list_elem_of_here |].
    split; [apply list_elem_of_here | constructor].
  - do 4 eexists.
    apply (proj2 (get_forward_parameters_fails_fast sample_flags
                    sample_variables 4716)).
    + first_of_group 0%nat.
    + first_of_group 1%nat.
    + first_of_group 2%nat.
    + first_of_group 3%nat.
    + first_of_group 4%nat.
    + first_of_group 5%nat.
    + first_of_group 6%nat.
    + first_of_group 7%nat.
    + split; [cbn; lia |]. split; [reflexivity | by eexists].
    + split; [cbn; lia |]. split; [reflexivity | by eexists].
    + split; [cbn; lia |]. split; [reflexivity | by eexists].
    + split; [cbn; lia |]. split; [reflexivity | by eexists].
Defined.

(** ** main *)




(** ** The managed session *)

Lemma log_effect (l : level) (msg : string) (w : world) :
  ∃ w1, log l msg w = (w1, Ok ())
        ∧ w_log w1 = w_log w ++ [(l, msg)]
        ∧ w_written w1 = w_written w ∧ w_files w1 = w_files w
        ∧ w_steps w1 = w_steps w ∧ w_should_stop w1 = w_should_stop w.
Proof. destruct w. cbn. eauto 10. Qed.

Lemma report_step_effect (self : Trainer) (v : step_values) (w : world) :
  ∃ w1, report_step self v w = (w1, Ok ())
        ∧ w_written w1 = w_written w ∧ w_files w1 = w_files w.
Proof.
  unfold report_step, bind, logging_info, log, add_summary.
  destruct w. cbn. eauto.
Qed.

(** A loop that is never asked to stop and whose session calls all
    succeed ends with the OutOfRangeError of the exhausted input queue,
    and has written nothing. *)
Lemma training_loop_exhausted (self : Trainer) (should_stop : nat → bool)
    (steps : list step_event) :
  ∀ (done : nat) (w : world),
    (∀ k, (k ≤ length steps)%nat → should_stop (done + k)%nat = false) →
    Forall (λ e, is_Step e = true) steps →
    ∃ w', training_loop self should_stop done steps w = (w', Raise OutOfRangeError)
          ∧ w_written w' = w_written w ∧ w_files w' = w_files w.
Proof.
  induction steps as [| e steps IH]; intros done w Hstop Hsteps.
  - assert (Hd : should_stop done = false)
      by (rewrite <- (Nat.add_0_r done); apply Hstop; cbn; lia).
    cbn. rewrite Hd. eauto.
  - apply Forall_cons in Hsteps as [He Hsteps].
    destruct e as [v | x]; [| done].
    assert (Hd : should_stop done = false)
      by (rewrite <- (Nat.add_0_r done); apply Hstop; cbn; lia).
    cbn [training_loop]. rewrite Hd.
    assert (Hrep : ∃ w1, (if self_is_master self then report_step self v
                          else ret ()) w = (w1, Ok ())
                         ∧ w_written w1 = w_written w ∧ w_files w1 = w_files w).
    { destruct (self_is_master self); [apply report_step_effect |].
      unfold ret. eauto. }
    destruct Hrep as (w1 & Hrep & Hw1 & Hf1).
    rewrite (bind_ok _ _ _ _ _ Hrep).
    destruct (IH (S done) w1) as (w' & Hloop & Hw' & Hf'); [| done |].
    + intros k Hk. replace (S done + k)%nat with (done + S k)%nat by lia.
      apply Hstop. cbn. lia.
    + exists w'. rewrite Hloop, Hw', Hf'. done.
Qed.

(** C2, as the code has it: when the training loop ends because the input
    queue is exhausted (no stop request while batches remain, every
    session call succeeds), the managed session completes without error
    and logs the end of training, but writes no file: the OutOfRangeError
    leaves the [try] before the export of the parameters is reached.
    (The claim asks for the four files autoencoder_layer0.model to
    autoencoder_layer3.model there.) *)
Theorem exhaustion_skips_parameter_export (FLAGS : Flags) (self : Trainer)
    (h : handles) (w : world) :
  (∀ k, (k ≤ length (w_steps w))%nat → w_should_stop w k = false) →
  Forall (λ e, is_Step e = true) (w_steps w) →
  snd (managed_session FLAGS self h w) = Ok ()
  ∧ w_written (fst (managed_session FLAGS self h w)) = w_written w
  ∧ w_files (fst (managed_session FLAGS self h w)) = w_files w
  ∧ last (w_log (fst (managed_session FLAGS self h w)))
    = Some (INFO, task_as_string (self_task self)
                  +:+ ": Done training -- epoch limit reached.").
Proof.
  intros Hstop Hsteps. unfold managed_session, try_except, logging_info.
  destruct (log_effect INFO (task_as_string (self_task self)
                             +:+ ": Entering training loop.") w)
    as (w0 & Hlog0 & _ & Hw0 & Hf0 & Hs0 & Hst0).
  rewrite (bind_ok _ _ _ _ _ Hlog0).
  destruct (training_loop_exhausted self (w_should_stop w0) (w_steps w0) 0 w0)
    as (w1 & Hloop & Hw1 & Hf1).
  { intros k Hk. rewrite Hst0. apply Hstop. by rewrite <- Hs0. }
  { by rewrite Hs0. }
  rewrite (bind_raise
             (λ w, training_loop self (w_should_stop w) 0 (w_steps w) w)
             _ w0 w1 _ Hloop). cbn [is_OutOfRangeError].
  destruct (log_effect INFO (task_as_string (self_task self)
                             +:+ ": Done training -- epoch limit reached.") w1)
    as (w2 & Hlog2 & Hl2 & Hw2 & Hf2 & _).
  rewrite Hlog2. cbn. rewrite Hw2, Hw1, Hw0, Hf2, Hf1, Hf0, Hl2.
  by rewrite last_snoc.
Qed.

Lemma exhaustion_skips_parameter_export_witness :
  let h := {| h_global_step := TConst 0; h_loss := TConst 0;
              h_reg_loss := TConst 0; h_predictions := TConst 0;
              h_labels := TConst 0; h_train_op := TConst 0;
              h_parameters := [TGroup []] |} in
  snd (managed_session sample_flags sample_trainer h sample_world) = Ok ()
  ∧ w_written (fst (managed_session sample_flags sample_trainer h sample_world))
    = [].
Proof.
  intros h.
  destruct (exhaustion_skips_parameter_export sample_flags sample_trainer h
              sample_world) as (Hok & Hwritten & _).
  - intros k _. reflexivity.
  - repeat constructor.
  - split; [exact Hok | exact Hwritten].
Defined.

(** The same run from [main]: two batches, then the queue is exhausted. *)
Example main_exhaustion_writes_nothing :
  let r := main sample_flags sample_modules sample_environ sample_world in
  snd r = Ok ()
  ∧ w_written (fst r) = []
  ∧ length (w_summaries (fst r)) = 8%nat
  ∧ w_files (fst r) = ["/tmp/yt8m_model/events.out"].
Proof. vm_compute. done. Qed.

(** When a stop request ends the loop instead, the export runs over the
    "parameters" collection, which [build_graph] filled with one item, the
    list of the four matrices: np.savetxt creates autoencoder_layer0.model
    and then refuses the value, and its ValueError, which the except
    clause does not take, ends the run. *)
Example main_stop_request_fails_in_export :
  let r := main sample_flags sample_modules sample_environ stopped_world in
  (∃ msg, snd r = Raise (ValueError msg))
  ∧ w_written (fst r) = []
  ∧ w_files (fst r) = [ "/tmp/yt8m_model/events.out";
                        "/tmp/yt8m_model/autoencoder_layer0.model" ].
Proof. vm_compute. split; [by eexists | done]. Qed.

(** ** What every step of a run respects *)

Section Respects.

Variable R : world → world → Prop.
Hypothesis R_refl : ∀ w, R w w.
Hypothesis R_trans : ∀ a b c, R a b → R b c → R a c.
Hypothesis R_log : ∀ l msg, respects R (log l msg).
Hypothesis R_savetxt : ∀ path value, respects R (np_savetxt path value).

Lemma respects_pure {A} (m : M A) : (∀ w, (m w).1 = w) → respects R m.
Proof. intros H w. rewrite H. apply R_refl. Qed.

Lemma respects_bind {A B} (m : M A) (k : A → M B) :
  respects R m → (∀ a, respects R (k a)) → respects R (bind m k).
Proof.
  intros Hm Hk w. unfold bind. specialize (Hm w).
  destruct (m w) as [w1 [a | e |]]; cbn [fst] in *; [| done | done].
  eapply R_trans; [exact Hm | apply Hk].
Qed.

Lemma respects_try_except {A} (m : M A) (handles : exn → bool) (h : M A) :
  respects R m → respects R h → respects R (try_except m handles h).
Proof.
  intros Hm Hh w. unfold try_except. specialize (Hm w).
  destruct (m w) as [w1 [a | e |]]; cbn [fst] in *; [done | | done].
  destruct (handles e); [| done].
  eapply R_trans; [exact Hm | apply Hh].
Qed.

Ltac respects_step :=
  match goal with
  | |- respects _ (bind _ _) => apply respects_bind; [| intros ?]
  | |- respects _ (logging_info _) => apply R_log
  | |- respects _ (log _ _) => apply R_log
  | |- respects _ (np_savetxt _ _) => apply R_savetxt
  | |- respects _ (match ?x with _ => _ end) => destruct x
  | |- respects _ (let _ := _ in _) => cbv zeta
  | |- respects _ _ => apply respects_pure; intros ?; reflexivity
  end.

Lemma respects_get_input_data_tensors (FLAGS : Flags) (r : reader)
    (data_pattern : string) (batch_size : Z) (num_epochs : option Z)
    (num_readers : Z) :
  respects R (get_input_data_tensors FLAGS r data_pattern batch_size num_epochs
                num_readers).
Proof. unfold get_input_data_tensors. repeat respects_step. Qed.

Lemma respects_build_graph (FLAGS : Flags) (r : reader) (model : pyclass)
    (train_data_pattern : string) (label_loss_fn : pyclass) (batch_size : Z)
    (base_learning_rate learning_rate_decay_examples learning_rate_decay : Q)
    (optimizer_class : attr) (clip_gradient_norm regularization_penalty : Q)
    (num_readers : Z) (num_epochs : option Z) :
  respects R
    (build_graph FLAGS r model train_data_pattern label_loss_fn batch_size
       base_learning_rate learning_rate_decay_examples learning_rate_decay
       optimizer_class clip_gradient_norm regularization_penalty num_readers
       num_epochs).
Proof.
  unfold build_graph. cbv zeta.
  apply respects_bind; [respects_step | intros optimizer].
  apply respects_bind; [apply respects_get_input_data_tensors | intros batch].
  repeat respects_step.
Qed.

Lemma respects_build_model (FLAGS : Flags) (modules : Modules) (self : Trainer) :
  respects R (build_model FLAGS modules self).
Proof.
  unfold build_model. cbv zeta.
  do 3 (apply respects_bind; [respects_step | intros ?]).
  apply respects_bind; [apply respects_build_graph | intros graph].
  repeat respects_step.
Qed.

Lemma respects_get_meta_filename (self : Trainer) (start_new_model : bool)
    (train_dir : string) :
  respects R (get_meta_filename self start_new_model train_dir).
Proof. unfold get_meta_filename. repeat respects_step. Qed.

Lemma respects_recover_model (self : Trainer) (meta_filename : string) :
  respects R (recover_model self meta_filename).
Proof.
  unfold recover_model. apply respects_bind; [apply R_log | intros _].
  apply respects_pure. intros w. unfold tf_train_import_meta_graph.
  by destruct (w_meta_graphs w !! meta_filename).
Qed.

Lemma respects_save_parameters (FLAGS : Flags) (params : list tensor) :
  ∀ i, respects R (save_parameters FLAGS i params).
Proof.
  induction params as [| p params IH]; intros i; cbn [save_parameters].
  - respects_step.
  - apply respects_bind; [apply R_savetxt | intros _; apply IH].
Qed.

Lemma respects_training_loop (self : Trainer) (should_stop : nat → bool)
    (steps : list step_event) :
  (∀ v, respects R (if self_is_master self then report_step self v else ret ())) →
  ∀ i, respects R (training_loop self should_stop i steps).
Proof.
  intros Hrep.
  induction steps as [| [v | e] steps IH]; intros i; cbn [training_loop];
    destruct (should_stop i);
    try (apply respects_pure; intros ?; reflexivity).
  apply respects_bind; [apply Hrep | intros _; apply IH].
Qed.

Lemma respects_managed_session (FLAGS : Flags) (self : Trainer) (h : handles) :
  (∀ v, respects R (if self_is_master self then report_step self v else ret ())) →
  respects R (managed_session FLAGS self h).
Proof.
  intros Hrep. unfold managed_session.
  apply respects_try_except; [| apply R_log].
  apply respects_bind; [apply R_log | intros _].
  apply respects_bind; [| intros _; apply respects_save_parameters].
  intros w. by apply respects_training_loop.
Qed.

Lemma respects_run (FLAGS : Flags) (modules : Modules) (self : Trainer)
    (start_new_model : bool) :
  respects R (if self_is_master self && start_new_model then
                remove_training_directory self (self_train_dir self)
              else ret ()) →
  respects R (start_server_if_distributed self) →
  (∀ v, respects R (if self_is_master self then report_step self v else ret ())) →
  respects R (run FLAGS modules self start_new_model).
Proof.
  intros Hremove Hserver Hrep. unfold run, run_from_server.
  apply respects_bind; [exact Hremove | intros _].
  apply respects_bind; [exact Hserver | intros _].
  apply respects_bind; [apply respects_get_meta_filename | intros meta_filename].
  apply respects_bind.
  { destruct (opt_str_truthy meta_filename);
      [apply respects_recover_model | apply respects_build_model]. }
  intros graph. apply respects_bind; [respects_step | intros h].
  apply respects_bind; [apply R_log | intros _].
  apply respects_bind; [by apply respects_managed_session | intros _].
  apply R_log.
Qed.

End Respects.

(** ** Removal of the training directory *)





(** ** The label loss of build_graph *)

Lemma get_input_data_tensors_model (FLAGS : Flags) (r : reader)
    (data_pattern : string) (batch_size : Z) (num_epochs : option Z)
    (num_readers : Z) (w w1 : world) (batch : list tensor) :
  get_input_data_tensors FLAGS r data_pattern batch_size num_epochs num_readers w
  = (w1, Ok batch) →
  w_create_model w1 = w_create_model w.
Proof.
  unfold get_input_data_tensors, bind, logging_info, log, gfile_Glob, raise, ret.
  destruct w as [g f d c mg cm st ss lg sv su wr sf]. cbn.
  destruct (bool_decide (g data_pattern = [])); cbn; [done |].
  by intros [= <- _].
Qed.

Lemma getitem_ok (d : gmap string tensor) (key : string) (v : tensor) :
  getitem d key = Ok v → d !! key = Some v.
Proof. unfold getitem. destruct (d !! key); [by intros [= ->] | done]. Qed.

(** C7: in every graph [build_graph] builds, the label loss that enters
    the total loss is the "loss" of the model's result when the result
    has that key; otherwise, when the result has "predictions_class", it
    is the mixed loss of the predictions and that auxiliary head against
    the labels; otherwise it is the configured loss function applied to
    predictions and labels.  Predictions and labels are the ones the graph
    registers (flattened when the predictions are per frame), and with
    update ops present the selected loss is read behind their barrier. *)
Theorem build_graph_label_loss (FLAGS : Flags) (r : reader) (model : pyclass)
    (train_data_pattern : string) (label_loss_fn : pyclass) (batch_size : Z)
    (base_learning_rate learning_rate_decay_examples learning_rate_decay : Q)
    (optimizer_class : attr) (clip_gradient_norm regularization_penalty : Q)
    (num_readers : Z) (num_epochs : option Z) (w w' : world) (g : registry) :
  build_graph FLAGS r model train_data_pattern label_loss_fn batch_size
    base_learning_rate learning_rate_decay_examples learning_rate_decay
    optimizer_class clip_gradient_norm regularization_penalty num_readers
    num_epochs w = (w', Ok g) →
  ∃ (raw_labels num_frames raw_predictions predictions labels : tensor)
    (reg_loss sparse_loss label_loss : tensor) (update_ops : list tensor),
    let result := mg_result (w_create_model w (cls_name model) raw_labels
                               num_frames (num_classes r)) in
    let selected :=
      match result !! "loss" with
      | Some loss => loss
      | None =>
          match result !! "predictions_class" with
          | Some predictions_class =>
              TCalculateLossMix (cls_name label_loss_fn) predictions
                                predictions_class labels
          | None => TCalculateLoss (cls_name label_loss_fn) predictions labels
          end
      end in
    result !! "predictions" = Some raw_predictions
    ∧ flatten_frames raw_predictions raw_labels = Ok (predictions, labels)
    ∧ get_collection "predictions" g = [predictions]
    ∧ get_collection "labels" g = [TCast labels]
    ∧ get_collection "loss" g
      = [TAdd (TAdd (TScale regularization_penalty reg_loss) label_loss)
              sparse_loss]
    ∧ (label_loss = selected
       ∨ (update_ops ≠ [] ∧ label_loss = TBarrierIdentity update_ops selected)).
Proof.
  unfold build_graph. intros H.
  apply bind_ok_inv in H as (w1 & optimizer & Hopt & H).
  apply lift_ok_inv in Hopt as [Hopt ->].
  apply bind_ok_inv in H as (w2 & batch & Hin & H).
  apply get_input_data_tensors_model in Hin as Hcm.
  apply bind_ok_inv in H as (w3 & batch4 & Hun & H).
  apply lift_ok_inv in Hun as [Hun ->].
  destruct batch4 as [[[video_id input_raw] raw_labels] num_frames].
  apply bind_ok_inv in H as (w4 & mg & Hmg & H).
  unfold create_model in Hmg. injection Hmg as <- <-. rewrite Hcm in H.
  apply bind_ok_inv in H as (w5 & parameters & Hpar & H).
  apply lift_ok_inv in Hpar as [Hpar ->].
  apply bind_ok_inv in H as (w6 & raw_predictions & Hpred & H).
  apply lift_ok_inv in Hpred as [Hpred ->]. apply getitem_ok in Hpred.
  apply bind_ok_inv in H as (w7 & flat & Hflat & H).
  apply lift_ok_inv in Hflat as [Hflat ->].
  destruct flat as [predictions labels].
  apply bind_ok_inv in H as (w8 & update_ops & Hupd & H).
  apply lift_ok_inv in Hupd as [Hupd ->].
  unfold ret in H. injection H as _ <-.
  eexists raw_labels, num_frames, raw_predictions, predictions, labels, _, _, _,
    update_ops.
  cbn zeta. split; [exact Hpred |]. split; [exact Hflat |].
  split; [reflexivity |]. split; [reflexivity |]. split; [reflexivity |].
  unfold select_label_loss.
  destruct (mg_result _ !! "loss") as [loss |];
    [| destruct (mg_result _ !! "predictions_class") as [pc |]; cbn [default]];
    (destruct update_ops as [| op ops]; [left; reflexivity | right; split; done]).
Qed.

Lemma build_graph_label_loss_witness :
  ∃ w' g predictions labels reg_loss sparse_loss label_loss,
    build_graph sample_flags
      (readers sample_modules "YT8MAggregatedFeatureReader" "mean_rgb" "1024")
      (class_of "Autoencoder" "BaseModel") "train*.tfrecord"
      (class_of "CrossEntropyLoss" "BaseLoss") 10 (1 # 1000) 4000000 (95 # 100)
      (AClass (class_of "AdamOptimizer" "Optimizer")) (1 # 10) 1 2 (Some 1)
      sample_world = (w', Ok g)
    ∧ get_collection "predictions" g = [predictions]
    ∧ get_collection "labels" g = [TCast labels]
    ∧ get_collection "loss" g
      = [TAdd (TAdd (TScale 1 reg_loss) label_loss) sparse_loss]
    ∧ (label_loss = TCalculateLoss "CrossEntropyLoss" predictions labels
       ∨ ∃ update_ops,
           label_loss = TBarrierIdentity update_ops
                          (TCalculateLoss "CrossEntropyLoss" predictions labels)).
Proof.
  destruct (build_graph sample_flags
      (readers sample_modules "YT8MAggregatedFeatureReader" "mean_rgb" "1024")
      (class_of "Autoencoder" "BaseModel") "train*.tfrecord"
      (class_of "CrossEntropyLoss" "BaseLoss") 10 (1 # 1000) 4000000 (95 # 100)
      (AClass (class_of "AdamOptimizer" "Optimizer")) (1 # 10) 1 2 (Some 1)
      sample_world) as [w' o] eqn:E.
  assert (Hok : is_ok o = true).
  { change o with (snd (w', o)). rewrite <- E. vm_compute. reflexivity. }
  destruct o as [g | e |]; [| discriminate Hok | discriminate Hok].
  destruct (build_graph_label_loss _ _ _ _ _ _ _ _ _ _ _ _ _ _ _ _ _ E)
    as (raw_labels & num_frames & raw_predictions & predictions & labels
        & reg_loss & sparse_loss & label_loss & update_ops & H).
  cbn zeta in H. destruct H as (_ & _ & Hp & Hl & Hloss & Hsel).
  exists w', g, predictions, labels, reg_loss, sparse_loss, label_loss.
  split; [reflexivity |]. split; [exact Hp |]. split; [exact Hl |].
  split; [exact Hloss |].
  destruct Hsel as [-> | [_ ->]]; [left | right; exists update_ops];
    reflexivity.
Defined.

(** ** Component lookup, continued *)

Lemma validate_class_name_contract_witness :
  let m := labels_autoencoder sample_modules in
  let c := class_of "Autoencoder" "BaseModel" in
  Forall (λ m' : pymodule, m' !! "Autoencoder" = None) [∅]
  ∧ m !! "Autoencoder" = Some (AClass c)
  ∧ ("BaseLoss" ∉ cls_mro c)
  ∧ ("BaseModel" ∈ cls_mro c)
  ∧ validate_class_name "Autoencoder" "model" [∅; m] "BaseLoss"
    = Raise (AttributeError "FlagsError")
  ∧ validate_class_name "Autoencoder" "model" [∅; m] "BaseModel" = Ok true
  ∧ validate_class_name "Autoencoder" "model" [∅] "BaseModel"
    = Raise (AttributeError "FlagsError").
Proof.
  intros m c.
  assert (Hpre : Forall (λ m' : pymodule, m' !! "Autoencoder" = None) [∅])
    by (repeat constructor).
  assert (Hm : m !! "Autoencoder" = Some (AClass c)) by reflexivity.
  assert (Hout : "BaseLoss" ∉ cls_mro c)
    by (apply (bool_decide_eq_false_1 ("BaseLoss" ∈ cls_mro c)); reflexivity).
  assert (Hin : "BaseModel" ∈ cls_mro c)
    by (apply (bool_decide_eq_true_1 ("BaseModel" ∈ cls_mro c)); reflexivity).
  destruct (validate_class_name_contract "Autoencoder" "model" "BaseLoss"
              [∅] [] m c Hpre) as [Hloss _].
  destruct (validate_class_name_contract "Autoencoder" "model" "BaseModel"
              [∅] [] m c Hpre) as [Hmodel Habsent].
  split; [exact Hpre |]. split; [exact Hm |]. split; [exact Hout |].
  split; [exact Hin |].
  split; [exact (proj1 (Hloss Hm) Hout) |].
  split; [exact (proj2 (Hmodel Hm) Hin) |].
  exact Habsent.
Defined.

(** X2: [validate_class_name] judges exactly the attribute that
    [find_class_by_name] returns for the same name and modules: a class of
    the family gives True, a true object that is no class the TypeError
    of [issubclass]; for a class outside the family, and where the lookup
    ends in StopIteration, the raise statement fails with the
    AttributeError of the missing flags.FlagsError. *)
Theorem validate_class_name_by_lookup (flag_value category : string)
    (modules : list pymodule) (super : string) :
  validate_class_name flag_value category modules super
  = match find_class_by_name flag_value modules with
    | Ok (AClass c) =>
        if bool_decide (super ∈ cls_mro c) then Ok true
        else Raise (AttributeError "FlagsError")
    | Ok (AOther _) => Raise (TypeError "issubclass() arg 1 must be a class")
    | Raise _ => Raise (AttributeError "FlagsError")
    | Blocks => Blocks
    end.
Proof.
  unfold validate_class_name, find_class_by_name.
  induction ((λ module, getattr module flag_value) <$> modules)
    as [| candidate rest IH]; [reflexivity |].
  destruct candidate as [[c | []] |]; cbn; [reflexivity | reflexivity | exact IH | exact IH].
Qed.

(** ** Servers *)


Lemma start_server_started (cluster : option ClusterSpec) (task : TaskSpec)
    (i : Z) (w : world) :
  type task ≠ "" → index task = Some i →
  ∃ w', start_server cluster task w = (w', Ok (ServerTarget (type task) (Some i)))
        ∧ w_servers w' = w_servers w ++ [(type task, Some i)]
        ∧ w_log w' = w_log w ∧ w_files w' = w_files w
        ∧ w_written w' = w_written w ∧ w_summaries w' = w_summaries w
        ∧ w_steps w' = w_steps w ∧ w_should_stop w' = w_should_stop w
        ∧ w_checkpoints w' = w_checkpoints w.
Proof.
  intros Ht Hi. unfold start_server.
  destruct (type task) as [| a s] eqn:E; [done |]. cbn [str_truthy negb].
  rewrite Hi. rewrite bool_decide_eq_false_2 by done.
  unfold bind, tf_train_Server, ret. destruct w. cbn. eauto 12.
Qed.

(** X3: [start_server] refuses a task without a type (checked first) or
    without an index with a ValueError whose message starts with the task
    as a string, and starts no server then; for a task that has both,
    within a cluster, it starts exactly one server, for that job name and
    task index, and returns it. *)
Theorem start_server_checks_task (cluster : option ClusterSpec)
    (task : TaskSpec) (w : world) :
  (type task = "" →
     start_server cluster task w
     = (w, Raise (ValueError (task_as_string task
                              +:+ ": The task type must be specified."))))
  ∧ (type task ≠ "" → index task = None →
     start_server cluster task w
     = (w, Raise (ValueError (task_as_string task
                              +:+ ": The task index must be specified."))))
  ∧ (is_Some cluster → type task ≠ "" → ∀ i, index task = Some i →
     ∃ w', start_server cluster task w
           = (w', Ok (ServerTarget (type task) (Some i)))
           ∧ w_servers w' = w_servers w ++ [(type task, Some i)]).
Proof.
  split; [| split].
  - intros Ht. unfold start_server. by rewrite Ht.
  - intros Ht Hi. unfold start_server.
    destruct (type task) as [| a s] eqn:E; [done |]. cbn [str_truthy negb].
    by rewrite bool_decide_eq_true_2.
  - intros _ Ht i Hi.
    destruct (start_server_started cluster task i w Ht Hi) as (w' & H & Hs & _).
    eauto.
Qed.

Lemma start_server_checks_task_witness :
  start_server None {| type := ""; index := None |} sample_world
  = (sample_world,
     Raise (ValueError "/job:/task:None: The task type must be specified."))
  ∧ start_server None {| type := "ps"; index := None |} sample_world
    = (sample_world,
       Raise (ValueError "/job:ps/task:None: The task index must be specified."))
  ∧ ∃ w', start_server (Some sample_cluster) {| type := "ps"; index := Some 0 |}
            sample_world = (w', Ok (ServerTarget "ps" (Some 0)))
          ∧ w_servers w' = [("ps", Some 0)].
Proof.
  split; [| split].
  - exact (proj1 (start_server_checks_task None {| type := ""; index := None |}
                    sample_world) eq_refl).
  - refine (proj1 (proj2 (start_server_checks_task None
                     {| type := "ps"; index := None |} sample_world)) _ eq_refl).
    discriminate.
  - refine (proj2 (proj2 (start_server_checks_task (Some sample_cluster)
                     {| type := "ps"; index := Some 0 |} sample_world))
              _ _ 0 eq_refl).
    + by eexists.
    + discriminate.
Defined.





(** ** The training loop, step by step *)

Lemma report_step_summaries (self : Trainer) (v : step_values) (w : world) :
  ∃ w1, report_step self v w = (w1, Ok ())
        ∧ w_summaries w1 = w_summaries w ++ step_summaries v
        ∧ length (w_log w1) = S (length (w_log w)).
Proof.
  unfold report_step, bind, logging_info, log, add_summary, step_summaries.
  destruct w as [g f d c mg cm st ss lg sv su wr sf]. cbn.
  eexists. split; [reflexivity |]. cbn.
  split; [by rewrite <- !app_assoc | rewrite length_app; cbn; lia].
Qed.

(** X6: a replica that is not the master trains silently: whatever the
    stop requests and the session calls, its training loop leaves the
    world as it found it (no log line, no summary, no file). *)
Theorem worker_trains_silently (self : Trainer) (should_stop : nat → bool)
    (steps : list step_event) :
  self_is_master self = false →
  ∀ (done : nat) (w : world),
    fst (training_loop self should_stop done steps w) = w.
Proof.
  intros Hm. induction steps as [| [v | e] steps IH]; intros i w; cbn;
    destruct (should_stop i); try reflexivity.
  rewrite Hm. unfold bind at 1. cbn. apply IH.
Qed.

Lemma worker_trains_silently_witness :
  self_is_master sample_worker = false
  ∧ fst (training_loop sample_worker (w_should_stop sample_world) 0
           (w_steps sample_world) sample_world) = sample_world.
Proof.
  split; [reflexivity |].
  apply (worker_trains_silently sample_worker (w_should_stop sample_world)
           (w_steps sample_world) eq_refl 0%nat sample_world).
Defined.

(** X7: the master reports every step it gets values for: after its
    training loop the summaries are those of before followed by the four
    summaries of each executed step in order, tagged Hit@1, Perr, GAP and
    Examples/Second at the global step of the step, and the log has one
    more line per executed step. *)
Theorem master_reports_every_step (self : Trainer) (should_stop : nat → bool)
    (steps : list step_event) :
  self_is_master self = true →
  ∀ (done : nat) (w : world),
    let w' := fst (training_loop self should_stop done steps w) in
    w_summaries w'
    = w_summaries w ++ flat_map step_summaries (executed should_stop done steps)
    ∧ length (w_log w')
      = (length (w_log w) + length (executed should_stop done steps))%nat.
Proof.
  intros Hm. induction steps as [| [v | e] steps IH]; intros i w; cbn;
    destruct (should_stop i); cbn; rewrite ?app_nil_r, ?Nat.add_0_r;
    try (split; reflexivity).
  rewrite Hm.
  destruct (report_step_summaries self v w) as (w1 & Hr & Hs & Hl).
  rewrite (bind_ok _ _ _ _ _ Hr).
  destruct (IH (S i) w1) as [IHs IHl]. cbn zeta in IHs, IHl.
  rewrite IHs, IHl, Hs, Hl. split; [by rewrite <- app_assoc | lia].
Qed.

Lemma master_reports_every_step_witness :
  self_is_master sample_trainer = true
  ∧ let w' := fst (training_loop sample_trainer (w_should_stop sample_world) 0
                     (w_steps sample_world) sample_world) in
    w_summaries w'
    = [ ("model/Training_Hit@1", 1); ("model/Training_Perr", 1);
        ("model/Training_GAP", 1); ("global_step/Examples/Second", 1);
        ("model/Training_Hit@1", 2); ("model/Training_Perr", 2);
        ("model/Training_GAP", 2); ("global_step/Examples/Second", 2) ]
    ∧ length (w_log w') = 2%nat.
Proof.
  split; [reflexivity |].
  apply (master_reports_every_step sample_trainer (w_should_stop sample_world)
           (w_steps sample_world) eq_refl 0%nat sample_world).
Defined.

(** The loop over the successful calls before step [n]. *)
Lemma training_loop_prefix (self : Trainer) (should_stop : nat → bool) :
  ∀ (n : nat) (steps : list step_event) (done : nat) (w : world),
    (n ≤ length steps)%nat →
    (∀ k, (k < n)%nat → should_stop (done + k)%nat = false) →
    Forall (λ e, is_Step e = true) (take n steps) →
    ∃ w1, training_loop self should_stop done steps w
          = training_loop self should_stop (done + n) (drop n steps) w1
          ∧ w_written w1 = w_written w ∧ w_files w1 = w_files w.
Proof.
  induction n as [| n IH]; intros steps d0 w Hlen Hstop Hsteps.
  - exists w. by rewrite Nat.add_0_r, drop_0.
  - destruct steps as [| e steps]; [cbn in Hlen; lia |].
    cbn in Hlen. cbn [take] in Hsteps.
    apply Forall_cons in Hsteps as [He Hsteps].
    destruct e as [v | e]; [| discriminate He].
    assert (Hd : should_stop d0 = false)
      by (rewrite <- (Nat.add_0_r d0); apply Hstop; lia).
    cbn [training_loop drop]. rewrite Hd.
    assert (Hrep : ∃ w1, (if self_is_master self then report_step self v
                          else ret ()) w = (w1, Ok ())
                         ∧ w_written w1 = w_written w ∧ w_files w1 = w_files w).
    { destruct (self_is_master self); [apply report_step_effect |].
      exists w. repeat split. }
    destruct Hrep as (w1 & Hrep & Hwr & Hf).
    rewrite (bind_ok _ _ _ _ _ Hrep).
    destruct (IH steps (S d0) w1) as (w2 & Hloop & Hwr2 & Hf2);
      [lia | | exact Hsteps |].
    + intros k Hk. replace (S d0 + k)%nat with (d0 + S k)%nat by lia.
      apply Hstop. lia.
    + exists w2. replace (d0 + S n)%nat with (S d0 + n)%nat by lia.
      split; [exact Hloop |]. split; congruence.
Qed.







(** X9: a session call that fails with an error other than
    OutOfRangeError, before any stop request, ends the managed session
    with that error: it is not caught, and no parameter file is written. *)
Theorem session_failure_propagates (FLAGS : Flags) (self : Trainer)
    (h : handles) (w : world) (n : nat) (e : exn) :
  w_steps w !! n = Some (StepFails e) →
  (∀ k, (k ≤ n)%nat → w_should_stop w k = false) →
  Forall (λ e, is_Step e = true) (take n (w_steps w)) →
  is_OutOfRangeError e = false →
  ∃ w', managed_session FLAGS self h w = (w', Raise e)
        ∧ w_written w' = w_written w.
Proof.
  intros Hfail Hgo Hsteps He. unfold managed_session, try_except.
  destruct (log_effect INFO (task_as_string (self_task self)
                             +:+ ": Entering training loop.") w)
    as (w0 & Hlog & _ & Hwr0 & Hf0 & Hst0 & Hss0).
  change (log INFO) with logging_info in Hlog.
  rewrite (bind_ok _ _ _ _ _ Hlog).
  destruct (training_loop_prefix self (w_should_stop w0) n (w_steps w0) 0 w0)
    as (w1 & Hloop & Hwr1 & Hf1).
  { rewrite Hst0. apply lookup_lt_Some in Hfail. lia. }
  { intros k Hk. rewrite Hss0. apply Hgo. lia. }
  { by rewrite Hst0. }
  cbn [Nat.add] in Hloop.
  assert (Hend : training_loop self (w_should_stop w0) n (drop n (w_steps w0)) w1
                 = (w1, Raise e)).
  { rewrite Hst0, (drop_S _ _ _ Hfail). cbn. rewrite Hss0, Hgo by lia. done. }
  rewrite Hend in Hloop.
  rewrite (bind_raise (λ w, training_loop self (w_should_stop w) 0 (w_steps w) w)
             _ w0 w1 e Hloop).
  rewrite He. exists w1. split; [reflexivity |]. congruence.
Qed.

Lemma session_failure_propagates_witness :
  ∃ w', managed_session sample_flags sample_trainer sample_handles failing_world
        = (w', Raise (OpError "Nan in summary histogram"))
        ∧ w_written w' = [].
Proof.
  apply (session_failure_propagates sample_flags sample_trainer sample_handles
           failing_world 1 (OpError "Nan in summary histogram")).
  - reflexivity.
  - intros k Hk. reflexivity.
  - repeat constructor.
  - reflexivity.
Defined.

(** ** The handles of the graph *)

Ltac key_in := repeat first [apply list_elem_of_here | apply list_elem_of_further].

(** X10: [Trainer.run] reads six handles with [[0]]: when one of the
    collections global_step, loss, reg_loss, predictions, labels and
    train_op of the graph is empty it fails with IndexError; when none is,
    each handle is the first item of its collection and the parameters are
    the whole "parameters" collection, which may be empty. *)
Theorem read_handles_needs_every_handle (graph : registry) :
  ((∃ key, key ∈ handle_keys ∧ get_collection key graph = []) →
     read_handles graph = Raise IndexError)
  ∧ ((∀ key, key ∈ handle_keys → get_collection key graph ≠ []) →
     ∃ h, read_handles graph = Ok h
          ∧ head (get_collection "global_step" graph) = Some (h_global_step h)
          ∧ head (get_collection "loss" graph) = Some (h_loss h)
          ∧ head (get_collection "reg_loss" graph) = Some (h_reg_loss h)
          ∧ head (get_collection "predictions" graph) = Some (h_predictions h)
          ∧ head (get_collection "labels" graph) = Some (h_labels h)
          ∧ head (get_collection "train_op" graph) = Some (h_train_op h)
          ∧ h_parameters h = get_collection "parameters" graph).
Proof.
  unfold read_handles. split.
  - intros (key & Hin & He). unfold handle_keys in Hin.
    repeat (apply elem_of_cons in Hin as [-> | Hin]);
      [.. | by apply elem_of_nil in Hin];
      repeat match goal with
             | |- context [first ?l] =>
                 destruct l eqn:?; cbn [first outcome_bind]
             end; try reflexivity; congruence.
  - intros H.
    pose proof (H "global_step" ltac:(key_in)) as H1.
    pose proof (H "loss" ltac:(key_in)) as H2.
    pose proof (H "reg_loss" ltac:(key_in)) as H3.
    pose proof (H "predictions" ltac:(key_in)) as H4.
    pose proof (H "labels" ltac:(key_in)) as H5.
    pose proof (H "train_op" ltac:(key_in)) as H6.
    clear H.
    destruct (get_collection "global_step" graph); [done |].
    destruct (get_collection "loss" graph); [done |].
    destruct (get_collection "reg_loss" graph); [done |].
    destruct (get_collection "predictions" graph); [done |].
    destruct (get_collection "labels" graph); [done |].
    destruct (get_collection "train_op" graph); [done |].
    cbn. eexists. split; [reflexivity |]. cbn. repeat split.
Qed.

Lemma read_handles_needs_every_handle_witness :
  read_handles (add_to_collection "parameters" (TGroup []) ∅) = Raise IndexError.
Proof.
  apply (proj1 (read_handles_needs_every_handle
                  (add_to_collection "parameters" (TGroup []) ∅))).
  exists "loss". split; [key_in | reflexivity].
Defined.

(** ** build_graph, from its result *)

Lemma get_input_data_tensors_queue (FLAGS : Flags) (r : reader)
    (data_pattern : string) (batch_size : Z) (num_epochs : option Z)
    (num_readers : Z) (w w1 : world) (batch : list tensor) :
  get_input_data_tensors FLAGS r data_pattern batch_size num_epochs num_readers w
  = (w1, Ok batch) →
  shuffle_batch_join
    {| bj_files := w_glob w data_pattern;
       bj_num_epochs := num_epochs;
       bj_shuffle := true;
       bj_components := replicate (Z.to_nat num_readers) (prepare_reader r);
       bj_batch_size := batch_size;
       bj_capacity := FLAGS_batch_size FLAGS * 5;
       bj_min_after_dequeue := FLAGS_batch_size FLAGS;
       bj_allow_smaller_final_batch := true;
       bj_enqueue_many := true |} = Ok batch
  ∧ w_glob w data_pattern ≠ [].
Proof.
  unfold get_input_data_tensors, bind, logging_info, log, gfile_Glob, raise,
    lift.
  destruct w as [g f d c mg cm st ss lg sv su wr sf]. cbn.
  destruct (bool_decide (g data_pattern = [])) eqn:E; cbn; [done |].
  apply bool_decide_eq_false_1 in E. by intros [= _ ->].
Qed.

Lemma unpack4_shuffle_batch_join (q : batch_join) (batch : list tensor)
    (a b c d : tensor) :
  shuffle_batch_join q = Ok batch →
  unpack4 batch = Ok (a, b, c, d) →
  a = TDequeue q 0 ∧ b = TDequeue q 1 ∧ c = TDequeue q 2 ∧ d = TDequeue q 3.
Proof.
  unfold shuffle_batch_join.
  destruct (bj_components q) as [| reader0 rest]; [done |].
  intros [= <-].
  destruct reader0 as [| s0 [| s1 [| s2 [| s3 [| s4 reader0]]]]]; try done.
  cbn. by intros [= <- <- <- <-].
Qed.

(** What a successful [build_graph] has done, read back from its result. *)
Lemma build_graph_inversion (FLAGS : Flags) (r : reader) (model : pyclass)
    (train_data_pattern : string) (label_loss_fn : pyclass) (batch_size : Z)
    (base_learning_rate learning_rate_decay_examples learning_rate_decay : Q)
    (optimizer_class : attr) (clip_gradient_norm regularization_penalty : Q)
    (num_readers : Z) (num_epochs : option Z) (w w' : world) (g : registry) :
  build_graph FLAGS r model train_data_pattern label_loss_fn batch_size
    base_learning_rate learning_rate_decay_examples learning_rate_decay
    optimizer_class clip_gradient_norm regularization_penalty num_readers
    num_epochs w = (w', Ok g) →
  ∃ (optimizer : pyclass) (q : batch_join) (parameters : list tensor)
    (raw_predictions predictions labels : tensor) (update_ops : list tensor),
    let mg := w_create_model w (cls_name model) (TDequeue q 2) (TDequeue q 3)
                (num_classes r) in
    let result := mg_result mg in
    let global_step := TVar {| name := "global_step"; shape := [] |} in
    let base_reg_loss := default (TConst 0%Q) (result !! "regularization_loss") in
    let reg_loss :=
      match mg_regularization_losses mg with
      | [] => base_reg_loss
      | _ => TAdd base_reg_loss (TAddN (mg_regularization_losses mg))
      end in
    let selected :=
      select_label_loss result (cls_name label_loss_fn) predictions
        (default predictions (result !! "predictions_class")) labels in
    let label_loss :=
      match update_ops with
      | [] => selected
      | _ => TBarrierIdentity update_ops selected
      end in
    let final_loss :=
      TAdd (TAdd (TScale regularization_penalty reg_loss) label_loss)
           (default (TConst 0%Q) (result !! "loss_sparse")) in
    instantiate optimizer_class = Ok optimizer
    ∧ q = {| bj_files := w_glob w train_data_pattern;
             bj_num_epochs := num_epochs;
             bj_shuffle := true;
             bj_components :=
               replicate (Z.to_nat num_readers) (prepare_reader r);
             bj_batch_size := batch_size;
             bj_capacity := FLAGS_batch_size FLAGS * 5;
             bj_min_after_dequeue := FLAGS_batch_size FLAGS;
             bj_allow_smaller_final_batch := true;
             bj_enqueue_many := true |}
    ∧ w_glob w train_data_pattern ≠ []
    ∧ get_forward_parameters FLAGS (mg_trainable_variables mg) (num_classes r)
      = Ok parameters
    ∧ result !! "predictions" = Some raw_predictions
    ∧ flatten_frames raw_predictions (TDequeue q 2) = Ok (predictions, labels)
    ∧ collect_update_ops (mg_update_ops mg) result = Ok update_ops
    ∧ g = add_to_collection "parameters" (TGroup parameters)
         (add_to_collection "train_op"
            (TTrainOp final_loss (cls_name optimizer)
               (TExponentialDecay base_learning_rate
                  (TMul global_step batch_size) learning_rate_decay_examples
                  learning_rate_decay true)
               global_step clip_gradient_norm)
         (add_to_collection "labels" (TCast labels)
         (add_to_collection "num_frames" (TDequeue q 3)
         (add_to_collection "input_batch_raw" (TDequeue q 1)
         (add_to_collection "predictions" predictions
         (add_to_collection "bottleneck"
            (default (TConst 0%Q) (result !! "bottleneck"))
         (add_to_collection "reg_loss" reg_loss
         (add_to_collection "loss" final_loss
         (add_to_collection "global_step" global_step
         (add_to_collection "train_op"
            (TTrainOp final_loss (cls_name optimizer)
               (TExponentialDecay base_learning_rate
                  (TMul global_step batch_size) learning_rate_decay_examples
                  learning_rate_decay true)
               global_step clip_gradient_norm)
         (add_to_collection "train_op"
            (TApplyGradients final_loss (cls_name optimizer)
               (TExponentialDecay base_learning_rate
                  (TMul global_step batch_size) learning_rate_decay_examples
                  learning_rate_decay true)
               global_step clip_gradient_norm) ∅))))))))))).
Proof.
  unfold build_graph. intros H.
  apply bind_ok_inv in H as (w1 & optimizer & Hopt & H).
  apply lift_ok_inv in Hopt as [Hopt ->].
  apply bind_ok_inv in H as (w2 & batch & Hin & H).
  apply get_input_data_tensors_model in Hin as Hcm.
  apply get_input_data_tensors_queue in Hin as [Hq Hglob].
  apply bind_ok_inv in H as (w3 & batch4 & Hun & H).
  apply lift_ok_inv in Hun as [Hun ->].
  destruct batch4 as [[[video_id input_raw] raw_labels] num_frames].
  apply (unpack4_shuffle_batch_join _ _ _ _ _ _ Hq) in Hun
    as (-> & -> & -> & ->).
  apply bind_ok_inv in H as (w4 & mg & Hmg & H).
  unfold create_model in Hmg. injection Hmg as <- <-. rewrite Hcm in H.
  apply bind_ok_inv in H as (w5 & parameters & Hpar & H).
  apply lift_ok_inv in Hpar as [Hpar ->].
  apply bind_ok_inv in H as (w6 & raw_predictions & Hpred & H).
  apply lift_ok_inv in Hpred as [Hpred ->]. apply getitem_ok in Hpred.
  apply bind_ok_inv in H as (w7 & flat & Hflat & H).
  apply lift_ok_inv in Hflat as [Hflat ->].
  destruct flat as [predictions labels].
  apply bind_ok_inv in H as (w8 & update_ops & Hupd & H).
  apply lift_ok_inv in Hupd as [Hupd ->].
  unfold ret in H. injection H as _ <-.
  eexists optimizer, _, parameters, raw_predictions, predictions, labels,
    update_ops.
  cbn zeta. split; [exact Hopt |]. split; [reflexivity |].
  split; [exact Hglob |]. split; [exact Hpar |]. split; [exact Hpred |].
  split; [exact Hflat |]. split; [exact Hupd |].
  destruct (mg_regularization_losses _); destruct update_ops; reflexivity.
Qed.

(** X11: in every graph [build_graph] returns each collection holds one
    item, except "train_op", which holds three: the op the optimizer's
    apply_gradients registered, then the train op of create_train_op
    twice.  So [Trainer.run] finds all six handles, and the train op it
    reads with [[0]] and runs is the optimizer's own op.  The single item
    of "parameters" is the list of the four forward parameters, each a
    matrix: a value np.savetxt refuses. *)
Theorem build_graph_registers_every_handle (FLAGS : Flags) (r : reader)
    (model : pyclass) (train_data_pattern : string) (label_loss_fn : pyclass)
    (batch_size : Z)
    (base_learning_rate learning_rate_decay_examples learning_rate_decay : Q)
    (optimizer_class : attr) (clip_gradient_norm regularization_penalty : Q)
    (num_readers : Z) (num_epochs : option Z) (w w' : world) (g : registry) :
  build_graph FLAGS r model train_data_pattern label_loss_fn batch_size
    base_learning_rate learning_rate_decay_examples learning_rate_decay
    optimizer_class clip_gradient_norm regularization_penalty num_readers
    num_epochs w = (w', Ok g) →
  ∃ (h : handles) (total_loss learning_rate global_step : tensor)
    (optimizer : pyclass) (p1 p2 p3 p4 : tensor),
    Forall (λ key, length (get_collection key g)
                   = if String.eqb key "train_op" then 3%nat else 1%nat)
           graph_keys
    ∧ optimizer_class = AClass optimizer
    ∧ get_collection "loss" g = [total_loss]
    ∧ get_collection "global_step" g = [global_step]
    ∧ get_collection "train_op" g
      = [ TApplyGradients total_loss (cls_name optimizer) learning_rate
            global_step clip_gradient_norm;
          TTrainOp total_loss (cls_name optimizer) learning_rate global_step
            clip_gradient_norm;
          TTrainOp total_loss (cls_name optimizer) learning_rate global_step
            clip_gradient_norm ]
    ∧ read_handles g = Ok h
    ∧ h_train_op h
      = TApplyGradients total_loss (cls_name optimizer) learning_rate
          global_step clip_gradient_norm
    ∧ h_parameters h = [TGroup [p1; p2; p3; p4]]
    ∧ not_an_array (TGroup [p1; p2; p3; p4]) = true.
Proof.
  intros H. apply build_graph_inversion in H
    as (optimizer & q & parameters & raw_predictions & predictions & labels
        & update_ops & H).
  cbn zeta in H. destruct H as (Hopt & _ & _ & Hpar & _ & _ & _ & ->).
  destruct optimizer_class as [c | b]; [| discriminate Hopt].
  injection Hopt as ->.
  apply get_forward_parameters_inversion in Hpar
    as (_ & p1 & p2 & p3 & p4 & -> & Hrank).
  apply Forall_cons in Hrank as [Hrank _].
  eexists _, _, _, _, optimizer, p1, p2, p3, p4.
  split.
  { unfold graph_keys. repeat (constructor; [reflexivity |]). constructor. }
  split; [reflexivity |]. split; [reflexivity |]. split; [reflexivity |].
  split; [reflexivity |]. split; [reflexivity |]. split; [reflexivity |].
  split; [reflexivity |].
  cbn [not_an_array existsb]. rewrite Hrank.
  by rewrite bool_decide_eq_true_2 by lia.
Qed.

Lemma build_graph_registers_every_handle_witness :
  ∃ w' g h total_loss learning_rate global_step p1 p2 p3 p4,
    build_graph sample_flags
      (readers sample_modules "YT8MAggregatedFeatureReader" "mean_rgb" "1024")
      (class_of "Autoencoder" "BaseModel") "train*.tfrecord"
      (class_of "CrossEntropyLoss" "BaseLoss") 10 (1 # 1000) 4000000 (95 # 100)
      (AClass (class_of "AdamOptimizer" "Optimizer")) (1 # 10) 1 2 (Some 1)
      sample_world = (w', Ok g)
    ∧ length (get_collection "train_op" g) = 3%nat
    ∧ read_handles g = Ok h
    ∧ h_train_op h = TApplyGradients total_loss "AdamOptimizer" learning_rate
                       global_step (1 # 10)
    ∧ h_parameters h = [TGroup [p1; p2; p3; p4]]
    ∧ not_an_array (TGroup [p1; p2; p3; p4]) = true.
Proof.
  destruct (build_graph sample_flags
      (readers sample_modules "YT8MAggregatedFeatureReader" "mean_rgb" "1024")
      (class_of "Autoencoder" "BaseModel") "train*.tfrecord"
      (class_of "CrossEntropyLoss" "BaseLoss") 10 (1 # 1000) 4000000 (95 # 100)
      (AClass (class_of "AdamOptimizer" "Optimizer")) (1 # 10) 1 2 (Some 1)
      sample_world) as [w' o] eqn:E.
  assert (Hok : is_ok o = true).
  { change o with (snd (w', o)). rewrite <- E. vm_compute. reflexivity. }
  destruct o as [g | e |]; [| discriminate Hok | discriminate Hok].
  destruct (build_graph_registers_every_handle _ _ _ _ _ _ _ _ _ _ _ _ _ _ _ _ _ E)
    as (h & total_loss & learning_rate & global_step & optimizer
        & p1 & p2 & p3 & p4 & _ & Hopt & _ & _ & Htrain & Hh & Hop & Hp & Hno).
  injection Hopt as <-.
  exists w', g, h, total_loss, learning_rate, global_step, p1, p2, p3, p4.
  split; [reflexivity |]. split; [by rewrite Htrain |]. split; [exact Hh |].
  split; [exact Hop |]. split; assumption.
Defined.

(** X13: [build_graph] feeds the model the labels: of the four tensors of
    a batch the model is created on the third (the labels) and the fourth
    (the frame counts), and the predictions and the bottleneck the graph
    registers are those of that model; the second tensor (the features)
    is registered as "input_batch_raw".  The batch comes from one queue
    over the globbed files, with the given batch size and epochs, one
    component list per reader, and a capacity of five times the
    batch-size flag. *)
Theorem build_graph_feeds_labels (FLAGS : Flags) (r : reader)
    (model : pyclass) (train_data_pattern : string) (label_loss_fn : pyclass)
    (batch_size : Z)
    (base_learning_rate learning_rate_decay_examples learning_rate_decay : Q)
    (optimizer_class : attr) (clip_gradient_norm regularization_penalty : Q)
    (num_readers : Z) (num_epochs : option Z) (w w' : world) (g : registry) :
  build_graph FLAGS r model train_data_pattern label_loss_fn batch_size
    base_learning_rate learning_rate_decay_examples learning_rate_decay
    optimizer_class clip_gradient_norm regularization_penalty num_readers
    num_epochs w = (w', Ok g) →
  ∃ (q : batch_join) (raw_predictions predictions labels : tensor),
    let mg := w_create_model w (cls_name model) (TDequeue q 2) (TDequeue q 3)
                (num_classes r) in
    bj_files q = w_glob w train_data_pattern
    ∧ bj_files q ≠ []
    ∧ bj_batch_size q = batch_size
    ∧ bj_num_epochs q = num_epochs
    ∧ bj_components q = replicate (Z.to_nat num_readers) (prepare_reader r)
    ∧ bj_capacity q = FLAGS_batch_size FLAGS * 5
    ∧ mg_result mg !! "predictions" = Some raw_predictions
    ∧ flatten_frames raw_predictions (TDequeue q 2) = Ok (predictions, labels)
    ∧ get_collection "predictions" g = [predictions]
    ∧ get_collection "labels" g = [TCast labels]
    ∧ get_collection "input_batch_raw" g = [TDequeue q 1]
    ∧ get_collection "num_frames" g = [TDequeue q 3]
    ∧ get_collection "bottleneck" g
      = [default (TConst 0%Q) (mg_result mg !! "bottleneck")].
Proof.
  intros H. apply build_graph_inversion in H
    as (optimizer & q & parameters & raw_predictions & predictions & labels
        & update_ops & H).
  cbn zeta in H. destruct H as (_ & Hq & Hglob & _ & Hpred & Hflat & _ & ->).
  exists q, raw_predictions, predictions, labels. cbn zeta.
  split; [by rewrite Hq |]. split; [by rewrite Hq |]. split; [by rewrite Hq |].
  split; [by rewrite Hq |]. split; [by rewrite Hq |]. split; [by rewrite Hq |].
  split; [exact Hpred |]. split; [exact Hflat |].
  repeat (split; [reflexivity |]). reflexivity.
Qed.

Lemma build_graph_feeds_labels_witness :
  ∃ w' g q,
    build_graph sample_flags
      (readers sample_modules "YT8MAggregatedFeatureReader" "mean_rgb" "1024")
      (class_of "Autoencoder" "BaseModel") "train*.tfrecord"
      (class_of "CrossEntropyLoss" "BaseLoss") 10 (1 # 1000) 4000000 (95 # 100)
      (AClass (class_of "AdamOptimizer" "Optimizer")) (1 # 10) 1 2 (Some 1)
      sample_world = (w', Ok g)
    ∧ bj_files q = ["train00.tfrecord"]
    ∧ get_collection "input_batch_raw" g = [TDequeue q 1]
    ∧ get_collection "num_frames" g = [TDequeue q 3].
Proof.
  destruct (build_graph sample_flags
      (readers sample_modules "YT8MAggregatedFeatureReader" "mean_rgb" "1024")
      (class_of "Autoencoder" "BaseModel") "train*.tfrecord"
      (class_of "CrossEntropyLoss" "BaseLoss") 10 (1 # 1000) 4000000 (95 # 100)
      (AClass (class_of "AdamOptimizer" "Optimizer")) (1 # 10) 1 2 (Some 1)
      sample_world) as [w' o] eqn:E.
  assert (Hok : is_ok o = true).
  { change o with (snd (w', o)). rewrite <- E. vm_compute. reflexivity. }
  destruct o as [g | e |]; [| discriminate Hok | discriminate Hok].
  destruct (build_graph_feeds_labels _ _ _ _ _ _ _ _ _ _ _ _ _ _ _ _ _ E)
    as (q & raw_predictions & predictions & labels & H).
  cbn zeta in H.
  destruct H as (Hf & _ & _ & _ & _ & _ & _ & _ & _ & _ & Hraw & Hnf & _).
  exists w', g, q. split; [reflexivity |]. split; [exact Hf |].
  split; assumption.
Defined.

(** X14: the regularization loss [build_graph] registers is the model's
    "regularization_loss" (0 when the result has none), plus the sum of
    the regularization losses of the graph when there are any; the total
    loss is the penalty times that registered loss, plus the label loss,
    plus the model's "loss_sparse" (0 when the result has none). *)
Theorem build_graph_regularization (FLAGS : Flags) (r : reader)
    (model : pyclass) (train_data_pattern : string) (label_loss_fn : pyclass)
    (batch_size : Z)
    (base_learning_rate learning_rate_decay_examples learning_rate_decay : Q)
    (optimizer_class : attr) (clip_gradient_norm regularization_penalty : Q)
    (num_readers : Z) (num_epochs : option Z) (w w' : world) (g : registry) :
  build_graph FLAGS r model train_data_pattern label_loss_fn batch_size
    base_learning_rate learning_rate_decay_examples learning_rate_decay
    optimizer_class clip_gradient_norm regularization_penalty num_readers
    num_epochs w = (w', Ok g) →
  ∃ (model_input num_frames reg_loss label_loss : tensor),
    let mg := w_create_model w (cls_name model) model_input num_frames
                (num_classes r) in
    let base := default (TConst 0%Q) (mg_result mg !! "regularization_loss") in
    get_collection "num_frames" g = [num_frames]
    ∧ get_collection "reg_loss" g = [reg_loss]
    ∧ (mg_regularization_losses mg = [] → reg_loss = base)
    ∧ (mg_regularization_losses mg ≠ [] →
       reg_loss = TAdd base (TAddN (mg_regularization_losses mg)))
    ∧ get_collection "loss" g
      = [TAdd (TAdd (TScale regularization_penalty reg_loss) label_loss)
              (default (TConst 0%Q) (mg_result mg !! "loss_sparse"))].
Proof.
  intros H. apply build_graph_inversion in H
    as (optimizer & q & parameters & raw_predictions & predictions & labels
        & update_ops & H).
  cbn zeta in H. destruct H as (_ & _ & _ & _ & _ & _ & _ & ->).
  eexists (TDequeue q 2), (TDequeue q 3), _, _. cbn zeta.
  split; [reflexivity |]. split; [reflexivity |].
  split; [| split];
    [intros He; rewrite He; reflexivity
    | intros He; destruct (mg_regularization_losses _); [done | reflexivity]
    | reflexivity].
Qed.

Lemma build_graph_regularization_witness :
  ∃ w' g label_loss,
    build_graph sample_flags
      (readers sample_modules "YT8MAggregatedFeatureReader" "mean_rgb" "1024")
      (class_of "Autoencoder" "BaseModel") "train*.tfrecord"
      (class_of "CrossEntropyLoss" "BaseLoss") 10 (1 # 1000) 4000000 (95 # 100)
      (AClass (class_of "AdamOptimizer" "Optimizer")) (1 # 10) 1 2 (Some 1)
      sample_world = (w', Ok g)
    ∧ get_collection "reg_loss" g = [TConst 0]
    ∧ get_collection "loss" g
      = [TAdd (TAdd (TScale 1 (TConst 0)) label_loss) (TConst 0)].
Proof.
  destruct (build_graph sample_flags
      (readers sample_modules "YT8MAggregatedFeatureReader" "mean_rgb" "1024")
      (class_of "Autoencoder" "BaseModel") "train*.tfrecord"
      (class_of "CrossEntropyLoss" "BaseLoss") 10 (1 # 1000) 4000000 (95 # 100)
      (AClass (class_of "AdamOptimizer" "Optimizer")) (1 # 10) 1 2 (Some 1)
      sample_world) as [w' o] eqn:E.
  assert (Hok : is_ok o = true).
  { change o with (snd (w', o)). rewrite <- E. vm_compute. reflexivity. }
  destruct o as [g | e |]; [| discriminate Hok | discriminate Hok].
  destruct (build_graph_regularization _ _ _ _ _ _ _ _ _ _ _ _ _ _ _ _ _ E)
    as (model_input & num_frames & reg_loss & label_loss & H).
  cbn zeta in H. destruct H as (_ & Hreg & Hbase & _ & Hloss).
  specialize (Hbase eq_refl). subst reg_loss.
  exists w', g, label_loss. split; [reflexivity |]. split; assumption.
Defined.

Lemma bind_blocks {A B} (m : M A) (k : A → M B) w w1 :
  m w = (w1, Blocks) → bind m k w = (w1, Blocks).
Proof. intros H. unfold bind. by rewrite H. Qed.

Lemma bind_assoc {A B C} (m : M A) (f : A → M B) (k : B → M C) w :
  bind (bind m f) k w = bind m (λ a, bind (f a) k) w.
Proof. unfold bind. by destruct (m w) as [w1 [a | e |]]. Qed.

(** ** build_graph, towards its errors *)





(** ** build_model *)

Lemma find_class_by_name_single (name : string) (m : pymodule) :
  find_class_by_name name [m]
  = match m !! name with
    | Some a => if attr_truthy (Some a) then Ok a else Raise StopIteration
    | None => Raise StopIteration
    end.
Proof.
  unfold find_class_by_name. cbn. unfold getattr.
  destruct (m !! name) as [[c | []] |]; reflexivity.
Qed.

(** X16: [build_model] looks up the model in [labels_autoencoder], the
    loss in [losses] and the optimizer in [tf.train], in this order; a
    name its module does not define ends the construction with a bare
    StopIteration before anything is logged or read: the world is as it
    was. *)
Theorem build_model_unknown_name (FLAGS : Flags) (modules : Modules)
    (self : Trainer) (w : world) :
  (labels_autoencoder modules !! FLAGS_model FLAGS = None →
     build_model FLAGS modules self w = (w, Raise StopIteration))
  ∧ (∀ model,
       labels_autoencoder modules !! FLAGS_model FLAGS = Some (AClass model) →
       losses modules !! FLAGS_label_loss FLAGS = None →
       build_model FLAGS modules self w = (w, Raise StopIteration))
  ∧ (∀ model label_loss,
       labels_autoencoder modules !! FLAGS_model FLAGS = Some (AClass model) →
       losses modules !! FLAGS_label_loss FLAGS = Some (AClass label_loss) →
       tf_train modules !! FLAGS_optimizer FLAGS = None →
       build_model FLAGS modules self w = (w, Raise StopIteration)).
Proof.
  unfold build_model. rewrite !find_class_by_name_single.
  split; [| split].
  - intros ->. reflexivity.
  - intros model -> ->. reflexivity.
  - intros model label_loss -> -> ->. reflexivity.
Qed.

Lemma build_model_unknown_name_witness :
  build_model
    {| FLAGS_train_dir := "/tmp/yt8m_model/";
       FLAGS_train_data_pattern := "train*.tfrecord";
       FLAGS_feature_names := "mean_rgb";
       FLAGS_feature_sizes := "1024";
       FLAGS_frame_features := false;
       FLAGS_frame_only := false;
       FLAGS_model := "LogisticModel";
       FLAGS_start_new_model := false;
       FLAGS_batch_size := 10;
       FLAGS_label_loss := "CrossEntropyLoss";
       FLAGS_regularization_penalty := 1%Q;
       FLAGS_base_learning_rate := (1 # 1000)%Q;
       FLAGS_learning_rate_decay := (95 # 100)%Q;
       FLAGS_learning_rate_decay_examples := 4000000%Q;
       FLAGS_num_epochs := Some 1;
       FLAGS_num_readers := 2;
       FLAGS_optimizer := "AdamOptimizer";
       FLAGS_clip_gradient_norm := (1 # 10)%Q;
       FLAGS_log_device_placement := false;
       FLAGS_hidden_size_1 := 100;
       FLAGS_hidden_size_2 := 50 |}
    sample_modules sample_trainer sample_world
  = (sample_world, Raise StopIteration).
Proof.
  apply (proj1 (build_model_unknown_name _ sample_modules sample_trainer
                  sample_world)).
  reflexivity.
Defined.

(** ** Trainer.run on a recovered graph *)

Lemma start_server_if_distributed_storage (self : Trainer) (w : world) :
  let w1 := fst (start_server_if_distributed self w) in
  w_files w1 = w_files w ∧ w_checkpoints w1 = w_checkpoints w
  ∧ w_meta_graphs w1 = w_meta_graphs w.
Proof.
  unfold start_server_if_distributed, start_server, bind, logging_info, log,
    tf_train_Server, raise, ret.
  destruct w as [g f d c mg cm st ss lg sv su wr sf].
  destruct (cluster_truthy (self_cluster self)); cbn; [| done].
  destruct (negb (str_truthy (type (self_task self)))); cbn; [done |].
  destruct (bool_decide (index (self_task self) = None)); cbn; done.
Qed.

(** X17: when the training directory has a latest checkpoint, the file
    named after it with ".meta" appended exists and the fresh-start flag
    is not set, [Trainer.run] builds nothing: after the server start it
    logs the restoration, takes the collections of that meta graph file
    and trains on them.  The model, loss and optimizer names and the data
    pattern are not looked at, and a meta graph that lacks one of the six
    handles ends the run with IndexError before a session is started. *)
Theorem run_recovers_without_building (FLAGS : Flags) (modules : Modules)
    (self : Trainer) (w : world) (checkpoint : string) (g : registry) :
  w_checkpoints w !! self_train_dir self = Some checkpoint →
  checkpoint ≠ "" →
  checkpoint +:+ ".meta" ∈ w_files w →
  w_meta_graphs w !! (checkpoint +:+ ".meta") = Some g →
  run_from_server FLAGS modules self false w
  = (start_server_if_distributed self;;
     logging_info (task_as_string (self_task self)
                   +:+ ": Restoring from meta graph file "
                   +:+ (checkpoint +:+ ".meta"));;
     h <- lift (read_handles g);;
     logging_info (task_as_string (self_task self)
                   +:+ ": Starting managed session.");;
     managed_session FLAGS self h;;
     logging_info (task_as_string (self_task self) +:+ ": Exited training loop."))
      w.
Proof.
  intros Hck Hne Hfile Hmeta. unfold run_from_server.
  pose proof (start_server_if_distributed_storage self w) as Hst.
  cbn zeta in Hst.
  destruct (start_server_if_distributed self w) as [w1 [t | e |]] eqn:Hs.
  2: by rewrite !(bind_raise _ _ _ _ _ Hs).
  2: by rewrite !(bind_blocks _ _ _ _ Hs).
  rewrite !(bind_ok _ _ _ _ _ Hs).
  cbn [fst] in Hst. destruct Hst as (Hf & Hc & Hm).
  assert (Hget : get_meta_filename self false (self_train_dir self) w1
                 = (w1, Ok (Some (checkpoint +:+ ".meta")))).
  { unfold get_meta_filename, tf_train_latest_checkpoint, gfile_Exists, bind, ret.
    rewrite Hc, Hck. cbn [opt_str_truthy default].
    destruct checkpoint as [| a s]; [done |]. cbn [str_truthy negb].
    rewrite Hf, bool_decide_eq_true_2 by done. reflexivity. }
  rewrite (bind_ok _ _ _ _ _ Hget). cbn [opt_str_truthy default].
  rewrite meta_filename_truthy. unfold recover_model. rewrite bind_assoc.
  set (msg := task_as_string (self_task self)
              +:+ ": Restoring from meta graph file "
              +:+ (checkpoint +:+ ".meta")).
  assert (Hlog : ∃ w2, logging_info msg w1 = (w2, Ok ())
                       ∧ w_meta_graphs w2 = w_meta_graphs w1).
  { unfold logging_info, log. destruct w1. cbn. eauto. }
  destruct Hlog as (w2 & Hlog & Hm2).
  rewrite !(bind_ok _ _ _ _ _ Hlog).
  assert (Himp : tf_train_import_meta_graph (checkpoint +:+ ".meta") w2
                 = (w2, Ok g)).
  { unfold tf_train_import_meta_graph. by rewrite Hm2, Hm, Hmeta. }
  rewrite (bind_ok _ _ _ _ _ Himp). reflexivity.
Qed.

Lemma run_recovers_without_building_witness :
  snd (run_from_server sample_flags sample_modules sample_trainer false
         recover_world) = Raise IndexError.
Proof.
  rewrite (run_recovers_without_building sample_flags sample_modules
             sample_trainer recover_world "/tmp/yt8m_model/model.ckpt-10" ∅).
  - reflexivity.
  - reflexivity.
  - discriminate.
  - key_in.
  - reflexivity.
Defined.

(** ** Flattening per-frame predictions *)



(** ** Trainer.__init__, on every task *)

(** X19: the constructor accepts every task: it returns a Trainer that
    keeps the cluster, the task and the training directory it was given,
    and that is the master exactly when the task type is "master" and the
    index is 0; an index of None or a type other than "master" gives a
    Trainer that is not the master. *)
Theorem Trainer_init_accepts_every_task (cluster : option ClusterSpec)
    (task : TaskSpec) (train_dir : string) (log_device_placement : bool) :
  ∃ self, Trainer_init cluster task train_dir log_device_placement = Ok self
          ∧ self_cluster self = cluster ∧ self_task self = task
          ∧ self_train_dir self = train_dir
          ∧ (self_is_master self = true
             ↔ type task = "master" ∧ index task = Some 0).
Proof.
  rewrite Trainer_init_never_raises. eexists. split; [reflexivity |].
  cbn [self_cluster self_task self_train_dir self_is_master].
  split; [reflexivity |]. split; [reflexivity |]. split; [reflexivity |].
  split.
  - intros [Ht Hi]%andb_prop. apply String.eqb_eq in Ht. split; [exact Ht |].
    destruct (index task) as [z |]; [| discriminate Hi].
    cbn in Hi. apply Z.eqb_eq in Hi. by subst.
  - intros [-> ->]. reflexivity.
Qed.

(** ** What a run leaves alone *)

Lemma start_server_if_distributed_keeps (self : Trainer) (w : world) :
  let w1 := fst (start_server_if_distributed self w) in
  w_summaries w1 = w_summaries w
  ∧ (cluster_truthy (self_cluster self) = false → w1 = w).
Proof.
  unfold start_server_if_distributed, start_server, bind, logging_info, log,
    tf_train_Server, raise, ret.
  destruct w as [g f d c mg cm st ss lg sv su wr sf].
  destruct (cluster_truthy (self_cluster self)); cbn; [| done].
  destruct (negb (str_truthy (type (self_task self)))); cbn; [done |].
  destruct (bool_decide (index (self_task self) = None)); cbn; done.
Qed.

Lemma report_step_keeps (self : Trainer) (v : step_values) (w : world) :
  w_servers (fst (report_step self v w)) = w_servers w.
Proof.
  unfold report_step, bind, logging_info, log, add_summary.
  by destruct w.
Qed.

Lemma remove_training_directory_keeps (self : Trainer) (train_dir : string)
    (w : world) :
  let w1 := fst (remove_training_directory self train_dir w) in
  w_servers w1 = w_servers w ∧ w_summaries w1 = w_summaries w.
Proof.
  unfold remove_training_directory, try_except, bind, logging_info,
    logging_error, log, gfile_DeleteRecursively.
  destruct w as [g f d c mg cm st ss lg sv su wr sf]. cbn.
  by destruct (negb (existsb _ f) || existsb _ f).
Qed.

(** X20: only the master adds summaries: a run of a replica that is not
    the master makes no add_summary call, however long it trains and
    however it ends. *)
Theorem worker_adds_no_summary (FLAGS : Flags) (modules : Modules)
    (self : Trainer) (start_new_model : bool) (w : world) :
  self_is_master self = false →
  w_summaries (fst (run FLAGS modules self start_new_model w)) = w_summaries w.
Proof.
  intros Hm.
  apply (respects_run same_summaries); unfold same_summaries.
  - done.
  - congruence.
  - intros l msg w0. unfold log. by destruct w0.
  - intros path value w0. unfold np_savetxt. destruct w0. cbn.
    by destruct (not_an_array value || _).
  - rewrite Hm. by intros w0.
  - intros w0. by destruct (start_server_if_distributed_keeps self w0) as (-> & _).
  - intros v w0. by rewrite Hm.
Qed.

Lemma worker_adds_no_summary_witness :
  w_summaries (fst (run sample_flags sample_modules sample_worker true
                      sample_world)) = [].
Proof.
  apply (worker_adds_no_summary sample_flags sample_modules sample_worker true
           sample_world).
  reflexivity.
Defined.

(** X21: a Trainer without a cluster starts no server: its run, fresh or
    recovered, with or without the removal of the training directory,
    leaves the list of started servers as it was. *)
Theorem local_run_starts_no_server (FLAGS : Flags) (modules : Modules)
    (self : Trainer) (start_new_model : bool) (w : world) :
  cluster_truthy (self_cluster self) = false →
  w_servers (fst (run FLAGS modules self start_new_model w)) = w_servers w.
Proof.
  intros Hc.
  apply (respects_run same_servers); unfold same_servers.
  - done.
  - congruence.
  - intros l msg w0. unfold log. by destruct w0.
  - intros path value w0. unfold np_savetxt. destruct w0. cbn.
    by destruct (not_an_array value || _).
  - intros w0. destruct (self_is_master self && start_new_model); [| done].
    by destruct (remove_training_directory_keeps self (self_train_dir self) w0)
      as (-> & _).
  - intros w0.
    destruct (start_server_if_distributed_keeps self w0) as (_ & Hsame).
    by rewrite (Hsame Hc).
  - intros v w0. destruct (self_is_master self); [| done].
    by rewrite report_step_keeps.
Qed.

Lemma local_run_starts_no_server_witness :
  w_servers (fst (run sample_flags sample_modules sample_trainer true
                    sample_world)) = [].
Proof.
  apply (local_run_starts_no_server sample_flags sample_modules sample_trainer
           true sample_world).
  reflexivity.
Defined.
